(** * Registration, login and session cookies of [Project/main.py]

    A shallow embedding of the FastAPI application: the [users] table and
    the SQLAlchemy session that writes to it, the token codec built on
    python-jose, and the route handlers, written in a small state and
    exception monad so that every [try]/[except] of the source is visible.

    Conventions.
    - A Python [str] is a Rocq [string], one [ascii] per character; this
      covers the code points up to U+00FF, on which [strip] and [lower] are
      modelled exactly.  String literals of the source that contain other
      characters are given by their UTF-8 bytes.
    - A [datetime] is an integer number of microseconds since the epoch.
    - Third-party functions whose results the program only passes on (the
      Argon2 hasher, the HMAC signature of a token, the rendering of a
      [datetime]) are variables of the section [App].
    - The [print] calls of the handlers write diagnostics to standard
      output only and are left out. *)

From Stdlib Require Import ZArith String Ascii List Lia Sorting.Sorted Permutation.
From stdpp Require Import base decidable option list strings gmap countable pretty sorting.

Local Open Scope string_scope.
Local Open Scope Z_scope.

(** ** Python strings *)

Module Str.

Definition ord (c : ascii) : Z := Z.of_N (N_of_ascii c).
Definition chr (n : Z) : ascii := ascii_of_N (Z.to_N n).

(** [str.isspace] on one character of the Latin-1 range. *)
Definition isspace (c : ascii) : bool :=
  let n := ord c in
  ((9 <=? n) && (n <=? 13)) || ((28 <=? n) && (n <=? 32))
  || (n =? 133) || (n =? 160).

(** [str.lower] on one character of the Latin-1 range. *)
Definition lower_char (c : ascii) : ascii :=
  let n := ord c in
  if ((65 <=? n) && (n <=? 90))
     || ((192 <=? n) && (n <=? 222) && negb (n =? 215))
  then chr (n + 32) else c.

Fixpoint lower (s : string) : string :=
  match s with
  | EmptyString => EmptyString
  | String c r => String (lower_char c) (lower r)
  end.

Fixpoint lstrip (s : string) : string :=
  match s with
  | EmptyString => EmptyString
  | String c r => if isspace c then lstrip r else s
  end.

Fixpoint rstrip (s : string) : string :=
  match s with
  | EmptyString => EmptyString
  | String c r =>
      match rstrip r with
      | EmptyString => if isspace c then EmptyString else String c EmptyString
      | r' => String c r'
      end
  end.

Definition strip (s : string) : string := rstrip (lstrip s).

(** [str(n)] for an [int]. *)
Definition str (n : Z) : string := pretty n.

(** Truth value of a [str]: the empty string is false. *)
Definition truthy (s : string) : bool :=
  match s with EmptyString => false | _ => true end.

Definition digit (c : ascii) : option Z :=
  let n := ord c in
  if (48 <=? n) && (n <=? 57) then Some (n - 48) else None.

(** The digits of an integer literal as [int()] reads them: at least one
    digit, single underscores allowed between digits only. *)
Fixpoint int_digits (acc : Z) (after_digit : bool) (s : string) : option Z :=
  match s with
  | EmptyString => if after_digit then Some acc else None
  | String c r =>
      match digit c with
      | Some d => int_digits (10 * acc + d) true r
      | None =>
          if Ascii.eqb c "_" && after_digit then int_digits acc false r
          else None
      end
  end.

(** [int(s)] for a [str]; [None] stands for [ValueError]. *)
Definition parse_int (s : string) : option Z :=
  match strip s with
  | String "+" r => int_digits 0 false r
  | String "-" r => Z.opp <$> int_digits 0 false r
  | t => int_digits 0 false t
  end.

End Str.

(** ** Values, exceptions and table rows *)

(** Values of the dictionary handed to [create_access_token]. *)
Inductive pyval :=
| PStr (s : string)
| PInt (n : Z)
| PDatetime (us : Z).

(** Values of a decoded claims object (the JSON payload of a token). *)
Inductive jval :=
| JStr (s : string)
| JInt (n : Z).

#[global] Instance jval_eq_dec : EqDecision jval.
Proof. solve_decision. Defined.

Inductive exn :=
| JWTError
| ExpiredSignatureError
| JWTClaimsError
| ValueError
| TypeError
| OverflowError
| IntegrityError
| InvalidRequestError
| TemplateNotFound (name : string)
| TemplateError.

(** [ExpiredSignatureError] and [JWTClaimsError] are subclasses of
    [JWTError]: [except JWTError] catches the three. *)
Definition is_JWTError (e : exn) : bool :=
  match e with
  | JWTError | ExpiredSignatureError | JWTClaimsError => true
  | _ => false
  end.

(** [except IntegrityError]. *)
Definition is_IntegrityError (e : exn) : bool :=
  match e with IntegrityError => true | _ => false end.

(** [except TemplateNotFound]. *)
Definition is_TemplateNotFound (e : exn) : bool :=
  match e with TemplateNotFound _ => true | _ => false end.

(** [except Exception]. *)
Definition is_Exception (e : exn) : bool := true.

Inductive result (A : Type) :=
| Ok (a : A)
| Raise (e : exn).
Arguments Ok {A} a.
Arguments Raise {A} e.

(** A row of the [users] table. *)
Record User := {
  id : Z;
  username : string;
  email : string;
  hashed_password : string;
  created_at : option Z
}.

(** [User(username=..., email=..., hashed_password=...)] before it is
    flushed: it has neither [id] nor [created_at]. *)
Record NewUser := {
  new_username : string;
  new_email : string;
  new_hashed_password : string
}.

#[global] Instance User_eq_dec : EqDecision User.
Proof. solve_decision. Defined.

#[global] Instance NewUser_eq_dec : EqDecision NewUser.
Proof. solve_decision. Defined.

(** The SQLAlchemy session of one request: the objects added and not yet
    flushed, and for every flushed object the row it has become (the
    object is updated in place by the flush). *)
Record Session := {
  new : list NewUser;
  persistent : list (NewUser * User)
}.

Definition fresh_session : Session := {| new := []; persistent := [] |}.

Record Request := { cookies : gmap string string }.

(** The context handed to the discussions template. *)
Record Context := {
  ctx_request : Request;
  ctx_user : option User;
  ctx_users_list : list User
}.

(** A template file: rendering may fail, in particular with
    [TemplateNotFound] when it includes a missing file. *)
Definition Template : Type := Context -> result string.

Inductive event :=
| Hashed (password : string)
| Verified (plain hashed : string)
| DbAdd
| DbCommit
| DbRollback
| DbRefresh
| DbQuery
| DbClose.

(** Everything a handler reads or changes: the [users] table in the order
    in which a scan of the table yields its rows, the session, the clock
    ([datetime.utcnow()]), the random bytes the hasher draws its salt
    from, the template directory, and the trace of the calls made so far. *)
Record World := {
  users : list User;
  db : Session;
  clock : Z;
  urandom : string;
  template_dir : string -> option Template;
  log : list event
}.

Definition set_users (t : list User) (w : World) : World :=
  {| users := t; db := db w; clock := clock w; urandom := urandom w;
     template_dir := template_dir w; log := log w |}.

Definition set_db (s : Session) (w : World) : World :=
  {| users := users w; db := s; clock := clock w; urandom := urandom w;
     template_dir := template_dir w; log := log w |}.

Definition emit (e : event) (w : World) : World :=
  {| users := users w; db := db w; clock := clock w; urandom := urandom w;
     template_dir := template_dir w; log := log w ++ [e] |}.

(** ** The monad of handlers: state and exceptions *)

Definition M (A : Type) : Type := World -> result A * World.

Definition ret {A} (a : A) : M A := fun w => (Ok a, w).

Definition raise {A} (e : exn) : M A := fun w => (Raise e, w).

Definition bind {A B} (m : M A) (k : A -> M B) : M B :=
  fun w =>
    match m w with
    | (Ok a, w') => k a w'
    | (Raise e, w') => (Raise e, w')
    end.

Notation "x <- m ;; k" := (bind m (fun x => k))
  (at level 90, m at next level, right associativity).
Notation "m ;;; k" := (bind m (fun _ => k))
  (at level 90, right associativity).

(** [try: body  except <catches>: handler]. *)
Definition try_except {A} (body : M A) (catches : exn -> bool) (handler : M A) : M A :=
  fun w =>
    match body w with
    | (Raise e, w') => if catches e then handler w' else (Raise e, w')
    | r => r
    end.

(** [try: body  finally: cleanup]. *)
Definition try_finally {A} (body : M A) (cleanup : M unit) : M A :=
  fun w =>
    match body w with
    | (r, w') =>
        match cleanup w' with
        | (Ok _, w'') => (r, w'')
        | (Raise e, w'') => (Raise e, w'')
        end
    end.

Definition get {A} (f : World -> A) : M A := fun w => (Ok (f w), w).
Definition modify (f : World -> World) : M unit := fun w => (Ok tt, f w).
Definition lift_result {A} (r : result A) : M A := fun w => (r, w).

Definition and_then {A B} (r : result A) (k : A -> result B) : result B :=
  match r with Ok a => k a | Raise e => Raise e end.

(** ** The [users] table behind the session *)

Definition max_id (t : list User) : option Z :=
  foldr (fun u acc => Some (match acc with Some m => Z.max (id u) m | None => id u end))
        None t.

(** SQLite gives a new row of a table with an [INTEGER PRIMARY KEY] one
    more than the largest key in use, and 1 in an empty table. *)
Definition next_rowid (t : list User) : Z :=
  match max_id t with Some m => m + 1 | None => 1 end.

(** The [unique=True] constraint on [email] compares the stored strings. *)
Definition email_taken (e : string) (t : list User) : bool :=
  existsb (fun u => String.eqb (email u) e) t.

(** The row written for a pending object: its key is the next one, and
    [created_at] takes its default, the clock. *)
Definition row_of (now : Z) (p : NewUser) (t : list User) : User :=
  {| id := next_rowid t;
     username := new_username p;
     email := new_email p;
     hashed_password := new_hashed_password p;
     created_at := Some now |}.

(** [INSERT INTO users]. *)
Definition insert_user (now : Z) (p : NewUser) (t : list User) : option User :=
  if email_taken (new_email p) t then None else Some (row_of now p t).

(** The flush of the pending objects, all or nothing. *)
Fixpoint flush (now : Z) (pending : list NewUser) (t : list User)
  : option (list User * list (NewUser * User)) :=
  match pending with
  | [] => Some (t, [])
  | p :: ps =>
      match insert_user now p t with
      | None => None
      | Some row =>
          match flush now ps (t ++ [row]) with
          | None => None
          | Some (t', flushed) => Some (t', (p, row) :: flushed)
          end
      end
  end.

(** [db.add(user)]. *)
Definition db_add (user : NewUser) : M unit :=
  modify (fun w =>
    emit DbAdd
      (set_db {| new := new (db w) ++ [user]; persistent := persistent (db w) |} w)).

(** [db.commit()]: on a violated constraint the database keeps its rows
    and the session keeps its pending objects until [db.rollback()]. *)
Definition db_commit : M unit :=
  fun w =>
    match flush (clock w) (new (db w)) (users w) with
    | Some (t', flushed) =>
        (Ok tt,
         emit DbCommit
           (set_db {| new := []; persistent := persistent (db w) ++ flushed |}
              (set_users t' w)))
    | None => (Raise IntegrityError, emit DbCommit w)
    end.

(** [db.rollback()]. *)
Definition db_rollback : M unit :=
  modify (fun w => emit DbRollback (set_db fresh_session w)).

(** [db.close()]. *)
Definition db_close : M unit :=
  modify (fun w => emit DbClose (set_db fresh_session w)).

Definition persistent_row (user : NewUser) (s : Session) : option User :=
  snd <$> List.find (fun pr => bool_decide (fst pr = user)) (persistent s).

(** [db.refresh(user)]: the row of a flushed object is read again by its
    primary key. *)
Definition db_refresh (user : NewUser) : M User :=
  fun w =>
    match persistent_row user (db w) with
    | Some row =>
        match List.find (fun u => id u =? id row) (users w) with
        | Some r => (Ok r, emit DbRefresh w)
        | None => (Raise InvalidRequestError, emit DbRefresh w)
        end
    | None => (Raise InvalidRequestError, emit DbRefresh w)
    end.

(** [db.query(User).all()]: no ordering is requested, the rows come in
    the order of the table scan. *)
Definition query_all : M (list User) :=
  modify (emit DbQuery) ;;; get users.

Definition id_le (u v : User) : Prop := id u <= id v.

#[global] Instance id_le_dec (u v : User) : Decision (id_le u v).
Proof. unfold id_le. apply _. Defined.

(** [db.query(User).order_by(User.id.asc()).all()]. *)
Definition query_order_by_id_asc : M (list User) :=
  modify (emit DbQuery) ;;; get (fun w => merge_sort id_le (users w)).

(** An [int] that SQLite can bind as an INTEGER. *)
Definition is_int64 (n : Z) : bool :=
  (- 2 ^ 63 <=? n) && (n <? 2 ^ 63).

(** [db.query(User).filter(User.id == uid).first()]. *)
Definition query_filter_id_first (uid : Z) : M (option User) :=
  if is_int64 uid
  then modify (emit DbQuery) ;;; get (fun w => List.find (fun u => id u =? uid) (users w))
  else raise OverflowError.

(** [db.query(User).filter(User.email == e).first()]. *)
Definition query_filter_email_first (e : string) : M (option User) :=
  modify (emit DbQuery) ;;;
  get (fun w => List.find (fun u => String.eqb (email u) e) (users w)).

(** [db = SessionLocal()], then the handler. *)
Definition with_session {A} (handler : M A) : M A :=
  modify (set_db fresh_session) ;;; handler.

(** The dependency [get_db]: the session is closed whatever the handler
    does. *)
Definition get_db {A} (handler : M A) : M A :=
  try_finally (with_session handler) db_close.

(** ** Responses *)

(** The arguments of [Response.set_cookie]. *)
Record Cookie := {
  key : string;
  value : string;
  httponly : bool;
  samesite : string;
  max_age : option Z
}.

(** One element of the list returned by [get_all_users]. *)
Record UserDict := {
  d_id : Z;
  d_username : string;
  d_email : string;
  d_created_at : option string
}.

Inductive Response :=
| HTMLResponse (content : string) (status_code : Z)
| RedirectResponse (url : string) (status_code : Z)
    (set_cookie : list Cookie) (delete_cookie : list string)
| FileResponse (path : string)
| JSONResponse (content : list UserDict).

Definition status_of (r : Response) : Z :=
  match r with
  | HTMLResponse _ c => c
  | RedirectResponse _ c _ _ => c
  | FileResponse _ => 200
  | JSONResponse _ => 200
  end.

Definition cookies_of (r : Response) : list Cookie :=
  match r with
  | RedirectResponse _ _ cs _ => cs
  | _ => []
  end.

Definition dq : string := String (ascii_of_nat 34) EmptyString.
Definition nl : string := String (ascii_of_nat 10) EmptyString.

Definition password_mismatch_html : string :=
  "<h3>Пароли не совпадают.</h3><p><a href='/register'>Назад</a></p>".

Definition email_exists_html : string :=
  "<h3>Пользователь с таким email уже существует.</h3><p><a href='/register'>Назад</a></p>".

Definition user_not_found_html : string :=
  "<h3>Пользователь не найден.</h3><p><a href='/login'>Назад</a></p>".

Definition wrong_password_html : string :=
  "<h3>Неверный пароль.</h3><p><a href='/login'>Назад</a></p>".

Definition discussions_fallback_html : string :=
  "<html><body><h2>Страница обсуждений временно недоступна</h2></body></html>".

(** ** Configuration *)

Definition SECRET_KEY : string := "replace_this_with_a_long_random_secret_in_prod".
Definition ALGORITHM : string := "HS256".
Definition ACCESS_TOKEN_EXPIRE_MINUTES : Z := 60 * 24 * 7.

(** [timedelta(minutes=m)], in microseconds. *)
Definition timedelta_minutes (m : Z) : Z := m * 60 * 1000000.

(** [timegm(d.utctimetuple())]: the whole seconds of a [datetime]. *)
Definition timegm (us : Z) : Z := us / 1000000.

(** ** The claims checks of [jose.jwt.decode]

    With the options the program leaves at their defaults, and neither
    [audience], [issuer], [subject] nor [access_token] given. *)

(** [int(claims[k])] inside the checks; [None] is the [ValueError] that
    they turn into [JWTClaimsError]. *)
Definition claim_int (v : jval) : option Z :=
  match v with
  | JInt n => Some n
  | JStr s => Str.parse_int s
  end.

Definition validate_iat (claims : gmap string jval) : result unit :=
  match claims !! "iat" with
  | None => Ok tt
  | Some v => match claim_int v with Some _ => Ok tt | None => Raise JWTClaimsError end
  end.

Definition validate_nbf (now : Z) (claims : gmap string jval) : result unit :=
  match claims !! "nbf" with
  | None => Ok tt
  | Some v =>
      match claim_int v with
      | Some nbf => if now <? nbf then Raise JWTClaimsError else Ok tt
      | None => Raise JWTClaimsError
      end
  end.

(** The token is refused once its [exp] is smaller than the current
    second. *)
Definition validate_exp (now : Z) (claims : gmap string jval) : result unit :=
  match claims !! "exp" with
  | None => Ok tt
  | Some v =>
      match claim_int v with
      | Some exp => if exp <? now then Raise ExpiredSignatureError else Ok tt
      | None => Raise JWTClaimsError
      end
  end.

(** No audience is passed to [decode], so a token that names one is
    refused. *)
Definition validate_aud (claims : gmap string jval) : result unit :=
  match claims !! "aud" with
  | None => Ok tt
  | Some _ => Raise JWTClaimsError
  end.

Definition validate_sub (claims : gmap string jval) : result unit :=
  match claims !! "sub" with
  | None | Some (JStr _) => Ok tt
  | Some (JInt _) => Raise JWTClaimsError
  end.

Definition validate_jti (claims : gmap string jval) : result unit :=
  match claims !! "jti" with
  | None | Some (JStr _) => Ok tt
  | Some (JInt _) => Raise JWTClaimsError
  end.

Definition validate_at_hash (claims : gmap string jval) : result unit :=
  match claims !! "at_hash" with
  | None => Ok tt
  | Some _ => Raise JWTClaimsError
  end.

Definition validate_claims (now : Z) (claims : gmap string jval) : result unit :=
  and_then (validate_iat claims) (fun _ =>
  and_then (validate_nbf now claims) (fun _ =>
  and_then (validate_exp now claims) (fun _ =>
  and_then (validate_aud claims) (fun _ =>
  and_then (validate_sub claims) (fun _ =>
  and_then (validate_jti claims) (fun _ =>
  validate_at_hash claims)))))).

(** The payload of a token: the time claims given as [datetime] are
    replaced by their timestamps; a [datetime] anywhere else cannot be
    written as JSON. *)
Definition time_claim (k : string) : bool :=
  String.eqb k "exp" || String.eqb k "iat" || String.eqb k "nbf".

Definition to_json (k : string) (v : pyval) : option jval :=
  match v with
  | PStr s => Some (JStr s)
  | PInt n => Some (JInt n)
  | PDatetime us => if time_claim k then Some (JInt (timegm us)) else None
  end.

Definition payload (claims : gmap string pyval) : option (gmap string jval) :=
  if bool_decide (map_Forall (fun k v => is_Some (to_json k v)) claims)
  then Some (map_imap to_json claims)
  else None.

(** ** A concrete stand-in for the third-party functions

    Small executable instances of the variables of the section [App], on
    which the handlers can be run: a hasher that tags its input, and a
    token format that writes the key, the algorithm and the claims as a
    string of binary digits. *)

Module Toy.

Definition pwd_hash (salt password : string) : string :=
  "$argon2id$" +:+ salt +:+ "$" +:+ password.

(** The toy hash is accepted for the password it ends with. *)
Definition pwd_verify (plain hashed : string) : bool :=
  let n := String.length plain in
  String.eqb (substring (String.length hashed - S n)%nat (S n) hashed)
             ("$" +:+ plain).

#[global] Instance jval_countable : Countable jval.
Proof.
  refine (inj_countable'
            (fun v => match v with JStr s => inl s | JInt n => inr n end)
            (fun x => match x with inl s => JStr s | inr n => JInt n end) _).
  intros []; reflexivity.
Defined.

Fixpoint digits_of_pos (p : positive) : string :=
  match p with
  | xH => EmptyString
  | xO q => String "0" (digits_of_pos q)
  | xI q => String "1" (digits_of_pos q)
  end.

Fixpoint pos_of_digits (s : string) : option positive :=
  match s with
  | EmptyString => Some xH
  | String c r =>
      match pos_of_digits r with
      | Some q =>
          if Ascii.eqb c "0" then Some (xO q)
          else if Ascii.eqb c "1" then Some (xI q)
          else None
      | None => None
      end
  end.

Definition jws_sign (k alg : string) (claims : gmap string jval) : string :=
  digits_of_pos (encode (k, alg, claims)).

Definition jws_verify (k : string) (algs : list string) (token : string)
  : option (gmap string jval) :=
  match pos_of_digits token with
  | Some p =>
      match decode p with
      | Some (k', alg, claims) =>
          if String.eqb k k' && existsb (String.eqb alg) algs
          then Some claims else None
      | None => None
      end
  | None => None
  end.

Definition isoformat (d : Z) : string := Str.str d.
Definition str_datetime (d : Z) : string := Str.str d.
Definition BASE_DIR : string := "/srv/Project".

(** A world with a given table and clock, a fresh session, no template
    file and an empty trace. *)
Definition world (t : list User) (now : Z) : World :=
  {| users := t; db := fresh_session; clock := now; urandom := "c2FsdA";
     template_dir := fun _ => None; log := [] |}.

Definition alice : User :=
  {| id := 1; username := "alice"; email := "alice@x.com";
     hashed_password := pwd_hash "c2FsdA" "pw1"; created_at := Some 0 |}.

Definition bob : User :=
  {| id := 2; username := "bob"; email := "bob@x.com";
     hashed_password := pwd_hash "c2FsdA" "pw2"; created_at := Some 5 |}.



End Toy.

(** ** The application *)

Section App.

(** [pwd_ctx.hash] with the random bytes it draws for the salt, and
    [pwd_ctx.verify]. *)
Variable pwd_hash : string -> string -> string.
Variable pwd_verify : string -> string -> bool.

(** The signed compact serialisation of a claims object under a key and an
    algorithm, and its verification against the accepted algorithms:
    [None] for a token that is malformed or whose signature does not
    match. *)
Variable jws_sign : string -> string -> gmap string jval -> string.
Variable jws_verify : string -> list string -> string -> option (gmap string jval).

(** [datetime.isoformat()] and [str(datetime)]. *)
Variable isoformat : Z -> string.
Variable str_datetime : Z -> string.

(** The directory of [main.py]. *)
Variable BASE_DIR : string.

(** What is assumed of them: a token signed under a key and an algorithm
    verifies under that key when that algorithm is the accepted one, and
    gives back the claims that were signed; the encoded hash that the
    hasher returns is not its input. *)
Hypothesis jws_verify_sign :
  forall k alg claims, jws_verify k [alg] (jws_sign k alg claims) = Some claims.
Hypothesis pwd_hash_encoded :
  forall salt password, pwd_hash salt password <> password.

Definition verify_password (plain hashed : string) : M bool :=
  modify (emit (Verified plain hashed)) ;;; ret (pwd_verify plain hashed).

Definition get_password_hash (password : string) : M string :=
  salt <- get urandom ;;
  modify (emit (Hashed password)) ;;;
  ret (pwd_hash salt password).

(** [jwt.encode(claims, key, algorithm=alg)]. *)
Definition jwt_encode (claims : gmap string pyval) (k alg : string) : M string :=
  match payload claims with
  | Some p => ret (jws_sign k alg p)
  | None => raise TypeError
  end.

(** [jwt.decode(token, key, algorithms=algs)]. *)
Definition jwt_decode (token k : string) (algs : list string) : M (gmap string jval) :=
  match jws_verify k algs token with
  | None => raise JWTError
  | Some claims =>
      now <- get clock ;;
      lift_result (validate_claims (timegm now) claims) ;;;
      ret claims
  end.

Definition create_access_token (data : gmap string pyval) (expires_delta : option Z)
  : M string :=
  let to_encode := data in
  expire <-
    (match expires_delta with
     | Some d =>
         if negb (d =? 0)
         then now <- get clock ;; ret (now + d)
         else now <- get clock ;; ret (now + timedelta_minutes ACCESS_TOKEN_EXPIRE_MINUTES)
     | None => now <- get clock ;; ret (now + timedelta_minutes ACCESS_TOKEN_EXPIRE_MINUTES)
     end) ;;
  let to_encode := <["exp" := PDatetime expire]> to_encode in
  encoded_jwt <- jwt_encode to_encode SECRET_KEY ALGORITHM ;;
  ret encoded_jwt.

Definition decode_token (token : string) : M (option (gmap string jval)) :=
  try_except
    (payload <- jwt_decode token SECRET_KEY [ALGORITHM] ;; ret (Some payload))
    is_JWTError
    (ret None).

Definition root : M Response :=
  ret (FileResponse (BASE_DIR +:+ "/static/index.html")).

Definition get_register : M Response :=
  ret (FileResponse (BASE_DIR +:+ "/static/register.html")).

Definition get_login : M Response :=
  ret (FileResponse (BASE_DIR +:+ "/static/login.html")).

Definition user_dict (u : User) : UserDict :=
  {| d_id := id u; d_username := username u; d_email := email u;
     d_created_at := isoformat <$> created_at u |}.

Definition get_all_users : M Response :=
  users <- query_all ;;
  ret (JSONResponse (map user_dict users)).

Definition user_row_html (u : User) : string :=
  "<tr><td>" +:+ Str.str (id u) +:+ "</td><td>" +:+ username u +:+ "</td><td>"
  +:+ email u +:+ "</td><td>"
  +:+ match created_at u with Some d => str_datetime d | None => "None" end
  +:+ "</td></tr>".

Definition users_page_html (rows : string) : string :=
  nl +:+ "    <html><head><meta charset=" +:+ dq +:+ "utf-8" +:+ dq
  +:+ "><title>Users</title></head>" +:+ nl
  +:+ "    <body style=" +:+ dq
  +:+ "font-family:Inter,Arial,Helvetica,sans-serif;padding:20px" +:+ dq +:+ ">" +:+ nl
  +:+ "      <h2>Users</h2>" +:+ nl
  +:+ "      <table border=" +:+ dq +:+ "1" +:+ dq +:+ " cellpadding=" +:+ dq +:+ "6" +:+ dq
  +:+ " cellspacing=" +:+ dq +:+ "0" +:+ dq +:+ ">" +:+ nl
  +:+ "        <thead><tr><th>id</th><th>username</th><th>email</th><th>created_at</th></tr></thead>"
  +:+ nl
  +:+ "        <tbody>" +:+ rows +:+ "</tbody>" +:+ nl
  +:+ "      </table>" +:+ nl
  +:+ "      <p><a href=" +:+ dq +:+ "/" +:+ dq +:+ ">Главная</a></p>" +:+ nl
  +:+ "    </body></html>" +:+ nl
  +:+ "    ".

Definition get_all_users_html : M Response :=
  users <- query_all ;;
  let rows := String.concat "" (map user_row_html users) in
  let html := users_page_html rows in
  ret (HTMLResponse html 200).

(** [int(x)] for a value of a claims object. *)
Definition py_int (v : jval) : M Z :=
  match v with
  | JInt n => ret n
  | JStr s => match Str.parse_int s with Some n => ret n | None => raise ValueError end
  end.

(** [templates.TemplateResponse(name, context)]. *)
Definition TemplateResponse (name : string) (context : Context) : M Response :=
  dir <- get template_dir ;;
  match dir name with
  | None => raise (TemplateNotFound name)
  | Some template =>
      html <- lift_result (template context) ;;
      ret (HTMLResponse html 200)
  end.

(** Lines 124 to 133 of [discussions]: the user of the session cookie. *)
Definition discussions_user_obj (request : Request) : M (option User) :=
  let token := cookies request !! "access_token" in
  match token with
  | Some token =>
      if Str.truthy token then
        data <- decode_token token ;;
        match data with
        | Some data =>
            if negb (bool_decide (data = ∅)) then
              match data !! "sub" with
              | Some sub =>
                  try_except
                    (uid <- py_int sub ;;
                     query_filter_id_first uid)
                    is_Exception
                    (ret None)
              | None => ret None
              end
            else ret None
        | None => ret None
        end
      else ret None
  | None => ret None
  end.

(** Lines 135 to 143 of [discussions], for the user found. *)
Definition discussions_page (request : Request) (user_obj : option User) : M Response :=
  users_list <- query_order_by_id_asc ;;
  let context :=
    {| ctx_request := request; ctx_user := user_obj; ctx_users_list := users_list |} in
  try_except
    (TemplateResponse "discussions/discussions.html" context)
    is_TemplateNotFound
    (let html := discussions_fallback_html in
     ret (HTMLResponse html 200)).

Definition discussions (request : Request) : M Response :=
  user_obj <- discussions_user_obj request ;;
  discussions_page request user_obj.

(** The cookie both [post_register] and [post_login] set. *)
Definition access_token_cookie (access_token : string) : Cookie :=
  {| key := "access_token";
     value := access_token;
     httponly := true;
     samesite := "lax";
     max_age := Some (ACCESS_TOKEN_EXPIRE_MINUTES * 60) |}.

Definition post_register (username email password password_confirm : string)
  : M Response :=
  if negb (String.eqb password password_confirm) then
    ret (HTMLResponse password_mismatch_html 400)
  else
    hashed <- get_password_hash password ;;
    let user := {| new_username := Str.strip username;
                   new_email := Str.lower (Str.strip email);
                   new_hashed_password := hashed |} in
    db_add user ;;;
    committed <-
      try_except
        (db_commit ;;;
         user <- db_refresh user ;;
         ret (inl user))
        is_IntegrityError
        (db_rollback ;;;
         ret (inr (HTMLResponse email_exists_html 400))) ;;
    match committed with
    | inr response => ret response
    | inl user =>
        access_token <-
          create_access_token {[ "sub" := PStr (Str.str (id user)) ]} None ;;
        let redirect_resp :=
          RedirectResponse "/discussions" 303 [access_token_cookie access_token] [] in
        ret redirect_resp
    end.

Definition post_login (email password : string) : M Response :=
  user <- query_filter_email_first (Str.lower (Str.strip email)) ;;
  match user with
  | None => ret (HTMLResponse user_not_found_html 401)
  | Some user =>
      ok <- verify_password password (hashed_password user) ;;
      if negb ok then
        ret (HTMLResponse wrong_password_html 401)
      else
        access_token <-
          create_access_token {[ "sub" := PStr (Str.str (id user)) ]} None ;;
        let redirect_resp :=
          RedirectResponse "/discussions" 303 [access_token_cookie access_token] [] in
        ret redirect_resp
  end.

Definition logout : M Response :=
  ret (RedirectResponse "/" 303 [] ["access_token"]).

(** The requests the application routes. *)
Inductive HttpRequest :=
| GET_root
| GET_register
| GET_login
| GET_debug_users
| GET_debug_users_html
| GET_discussions (request : Request)
| POST_register (username email password password_confirm : string)
| POST_login (email password : string)
| GET_logout.

(** The routes; those that declare [db: Session = Depends(get_db)] run
    inside [get_db]. *)
Definition app (r : HttpRequest) : M Response :=
  match r with
  | GET_root => root
  | GET_register => get_register
  | GET_login => get_login
  | GET_debug_users => get_db get_all_users
  | GET_debug_users_html => get_db get_all_users_html
  | GET_discussions request => get_db (discussions request)
  | POST_register u e p pc => get_db (post_register u e p pc)
  | POST_login e p => get_db (post_login e p)
  | GET_logout => logout
  end.

(** The database file as [Base.metadata.create_all] leaves a new one. *)
Definition empty_table : list User := [].

(** The tables the application can hold: the empty one, and the one left
    by any request served on such a table, whatever the clock, the random
    bytes and the templates are at that moment. *)
Inductive reachable : list User -> Prop :=
| reachable_empty : reachable empty_table
| reachable_app (w : World) (r : HttpRequest) :
    reachable (users w) -> reachable (users (snd (app r w))).


(** What the lookup of lines 129 to 133 gives for a subject claim. *)
Definition user_of_sub (sub : jval) (t : list User) : option User :=
  match sub with
  | JInt n => if is_int64 n then List.find (fun u => id u =? n) t else None
  | JStr s =>
      match Str.parse_int s with
      | Some n => if is_int64 n then List.find (fun u => id u =? n) t else None
      | None => None
      end
  end.

Definition id_lt (u v : User) : Prop := id u < id v.

(** The keys ascend along the table and no email occurs twice. *)
Definition table_inv (t : list User) : Prop :=
  StronglySorted id_lt t /\ NoDup (map email t).

(** [x in s] for two strings. *)
Definition substring_of (x s : string) : Prop :=
  exists pre post, s = pre +:+ x +:+ post.

(** A test that holds of every character of a string. *)
Fixpoint all_chars (p : ascii -> bool) (s : string) : bool :=
  match s with
  | EmptyString => true
  | String c r => p c && all_chars p r
  end.

Definition not_space (c : ascii) : bool := negb (Str.isspace c).


(** The claims of the token issued for a subject at a clock reading. *)
Definition access_claims (sub : string) (now : Z) : gmap string jval :=
  {[ "exp" := JInt (timegm now + 604800); "sub" := JStr sub ]}.

(** ** Running the monad *)

Lemma bind_run {A B} (m : M A) (k : A -> M B) w :
  bind m k w = match m w with
               | (Ok a, w') => k a w'
               | (Raise e, w') => (Raise e, w')
               end.
Proof. reflexivity. Qed.

Lemma bind_ok {A B} (m : M A) (k : A -> M B) w a w' :
  m w = (Ok a, w') -> bind m k w = k a w'.
Proof. intros H. unfold bind. rewrite H. reflexivity. Qed.

Lemma bind_raise {A B} (m : M A) (k : A -> M B) w e w' :
  m w = (Raise e, w') -> bind m k w = (Raise e, w').
Proof. intros H. unfold bind. rewrite H. reflexivity. Qed.

Lemma try_except_ok {A} (body : M A) catches handler w a w' :
  body w = (Ok a, w') -> try_except body catches handler w = (Ok a, w').
Proof. intros H. unfold try_except. rewrite H. reflexivity. Qed.


Lemma try_except_uncaught {A} (body : M A) catches handler w e w' :
  body w = (Raise e, w') -> catches e = false ->
  try_except body catches handler w = (Raise e, w').
Proof. intros H Hc. unfold try_except. rewrite H, Hc. reflexivity. Qed.

Lemma get_password_hash_run password w :
  get_password_hash password w
  = (Ok (pwd_hash (urandom w) password), emit (Hashed password) w).
Proof. reflexivity. Qed.

Lemma db_add_run user w :
  db_add user w
  = (Ok tt, emit DbAdd
              (set_db {| new := new (db w) ++ [user];
                         persistent := persistent (db w) |} w)).
Proof. reflexivity. Qed.

Lemma db_commit_ok w t' flushed :
  flush (clock w) (new (db w)) (users w) = Some (t', flushed) ->
  db_commit w
  = (Ok tt, emit DbCommit
              (set_db {| new := []; persistent := persistent (db w) ++ flushed |}
                 (set_users t' w))).
Proof. intros H. unfold db_commit. rewrite H. reflexivity. Qed.

Lemma db_commit_conflict w :
  flush (clock w) (new (db w)) (users w) = None ->
  db_commit w = (Raise IntegrityError, emit DbCommit w).
Proof. intros H. unfold db_commit. rewrite H. reflexivity. Qed.

Lemma db_refresh_ok user row w :
  persistent_row user (db w) = Some row ->
  List.find (fun u => id u =? id row) (users w) = Some row ->
  db_refresh user w = (Ok row, emit DbRefresh w).
Proof. intros H1 H2. unfold db_refresh. rewrite H1, H2. reflexivity. Qed.

Lemma get_db_run {A} (h : M A) w :
  get_db h w =
    (fst (h (set_db fresh_session w)),
     emit DbClose (set_db fresh_session (snd (h (set_db fresh_session w))))).
Proof.
  unfold get_db, try_finally, with_session, bind, modify, db_close. simpl.
  destruct (h (set_db fresh_session w)) as [[a|e] w']; reflexivity.
Qed.


(** ** Registration: the password check *)

Lemma post_register_mismatch_run username email password password_confirm w :
  password <> password_confirm ->
  post_register username email password password_confirm w
  = (Ok (HTMLResponse password_mismatch_html 400), w).
Proof.
  intros Hne. unfold post_register.
  apply String.eqb_neq in Hne. rewrite Hne. reflexivity.
Qed.

(** C8. A registration whose password differs from its confirmation is
    answered by status 400 with the HTML fragment that tells so, by the
    handler and by the route alike. *)
Theorem post_register_mismatch_400 username email password password_confirm w :
  password <> password_confirm ->
  fst (post_register username email password password_confirm w)
  = Ok (HTMLResponse password_mismatch_html 400)
  /\ fst (app (POST_register username email password password_confirm) w)
     = Ok (HTMLResponse password_mismatch_html 400)
  /\ status_of (HTMLResponse password_mismatch_html 400) = 400.
Proof.
  intros Hne. split; [|split].
  - rewrite post_register_mismatch_run by assumption. reflexivity.
  - simpl app. rewrite get_db_run.
    rewrite post_register_mismatch_run by assumption. reflexivity.
  - reflexivity.
Qed.

(** C9. A registration whose password differs from its confirmation
    leaves the world as it found it: the table, the session and the trace
    of calls are the same, so that no row was written, nothing was added
    to the session and the hasher was not called.  Through the route the
    only trace is the closing of the session. *)
Theorem post_register_mismatch_frame username email password password_confirm w :
  password <> password_confirm ->
  snd (post_register username email password password_confirm w) = w
  /\ users (snd (app (POST_register username email password password_confirm) w))
     = users w
  /\ log (snd (app (POST_register username email password password_confirm) w))
     = (log w ++ [DbClose])%list.
Proof.
  intros Hne. split; [|split].
  - rewrite post_register_mismatch_run by assumption. reflexivity.
  - simpl app. rewrite get_db_run.
    rewrite post_register_mismatch_run by assumption. reflexivity.
  - simpl app. rewrite get_db_run.
    rewrite post_register_mismatch_run by assumption. reflexivity.
Qed.

(** ** The table *)

Lemma email_taken_true e t :
  email_taken e t = true <-> exists u, In u t /\ email u = e.
Proof.
  unfold email_taken. rewrite existsb_exists. split.
  - intros (u & Hin & Heq). apply String.eqb_eq in Heq. eauto.
  - intros (u & Hin & Heq). exists u. split; [assumption|]. now apply String.eqb_eq.
Qed.

Lemma email_taken_false e t :
  email_taken e t = false <-> forall u, In u t -> email u <> e.
Proof.
  rewrite <- not_true_iff_false, email_taken_true. split.
  - intros Hno u Hin Heq. apply Hno. eauto.
  - intros Hall (u & Hin & Heq). exact (Hall u Hin Heq).
Qed.

Lemma max_id_bound t u :
  In u t -> exists m, max_id t = Some m /\ id u <= m.
Proof.
  induction t as [|v t IH]; simpl; [intros []|].
  intros [->|Hin].
  - destruct (max_id t) as [m|]; eexists; split; try reflexivity; lia.
  - destruct (IH Hin) as (m & -> & Hle). eexists; split; [reflexivity|]. lia.
Qed.

Lemma next_rowid_above t u : In u t -> id u < next_rowid t.
Proof.
  intros Hin. destruct (max_id_bound t u Hin) as (m & Hm & Hle).
  unfold next_rowid. rewrite Hm. lia.
Qed.

Lemma find_id_new t row :
  (forall u, In u t -> id u < id row) ->
  List.find (fun u => id u =? id row) (t ++ [row]) = Some row.
Proof.
  induction t as [|v t IH]; simpl; intros Hlt.
  - rewrite Z.eqb_refl. reflexivity.
  - assert (id v < id row) as Hv by (apply Hlt; now left).
    apply Z.lt_neq, Z.eqb_neq in Hv. rewrite Hv. apply IH. intros u Hu. apply Hlt. now right.
Qed.


Lemma flush_one_fresh now p t :
  email_taken (new_email p) t = false ->
  flush now [p] t = Some ((t ++ [row_of now p t])%list, [(p, row_of now p t)]).
Proof. intros H. simpl. unfold insert_user. rewrite H. reflexivity. Qed.

Lemma flush_one_taken now p t :
  email_taken (new_email p) t = true -> flush now [p] t = None.
Proof. intros H. simpl. unfold insert_user. rewrite H. reflexivity. Qed.

(** ** The token of a session *)

Lemma timegm_expire now :
  timegm (now + timedelta_minutes ACCESS_TOKEN_EXPIRE_MINUTES) = timegm now + 604800.
Proof.
  unfold timegm, timedelta_minutes, ACCESS_TOKEN_EXPIRE_MINUTES.
  replace (now + 60 * 24 * 7 * 60 * 1000000) with (now + 604800 * 1000000) by lia.
  rewrite Z.div_add by lia. reflexivity.
Qed.

Lemma payload_access_token sub expire :
  payload (<["exp" := PDatetime expire]> {[ "sub" := PStr sub ]})
  = Some {[ "exp" := JInt (timegm expire); "sub" := JStr sub ]}.
Proof.
  unfold payload. rewrite bool_decide_true.
  - reflexivity.
  - apply map_Forall_insert_2; [simpl; eauto|].
    apply map_Forall_singleton. simpl; eauto.
Qed.

Lemma create_access_token_run sub w :
  create_access_token {[ "sub" := PStr sub ]} None w
  = (Ok (jws_sign SECRET_KEY ALGORITHM (access_claims sub (clock w))), w).
Proof.
  unfold create_access_token, jwt_encode, bind, get, ret. 
  rewrite payload_access_token, timegm_expire. reflexivity.
Qed.

(** ** Registration: the insert *)

Lemma post_register_taken_run username email password w :
  db w = fresh_session ->
  email_taken (Str.lower (Str.strip email)) (users w) = true ->
  exists w',
    post_register username email password password w
    = (Ok (HTMLResponse email_exists_html 400), w')
    /\ users w' = users w
    /\ db w' = fresh_session
    /\ log w' = (log w ++ [Hashed password; DbAdd; DbCommit; DbRollback])%list.
Proof.
  intros Hdb Htaken. unfold post_register. rewrite String.eqb_refl.
  cbn [negb].
  unfold bind at 1. unfold get_password_hash, bind, get, modify, ret, db_add,
    try_except, db_commit, db_rollback.
  cbn -[flush]. rewrite Hdb. cbn -[flush].
  rewrite flush_one_taken by exact Htaken. cbn.
  eexists. split; [reflexivity|]. cbn. rewrite <- !app_assoc. auto.
Qed.

Lemma post_register_fresh_run username email password w :
  db w = fresh_session ->
  email_taken (Str.lower (Str.strip email)) (users w) = false ->
  let user := {| new_username := Str.strip username;
                 new_email := Str.lower (Str.strip email);
                 new_hashed_password := pwd_hash (urandom w) password |} in
  let row := row_of (clock w) user (users w) in
  exists w',
    post_register username email password password w
    = (Ok (RedirectResponse "/discussions" 303
             [access_token_cookie
                (jws_sign SECRET_KEY ALGORITHM
                   (access_claims (Str.str (id row)) (clock w)))] []), w')
    /\ users w' = (users w ++ [row])%list
    /\ db w' = {| new := []; persistent := [(user, row)] |}
    /\ clock w' = clock w
    /\ log w' = (log w ++ [Hashed password; DbAdd; DbCommit; DbRefresh])%list.
Proof.
  intros Hdb Hfree user row. unfold post_register. rewrite String.eqb_refl.
  cbn [negb].
  erewrite bind_ok by apply get_password_hash_run. fold user.
  erewrite bind_ok by apply db_add_run.
  erewrite bind_ok.
  2:{ apply try_except_ok. erewrite bind_ok.
      2:{ apply db_commit_ok. cbn [users db clock emit set_db new].
          rewrite Hdb. cbn [new fresh_session].
          apply flush_one_fresh. exact Hfree. }
      erewrite bind_ok.
      2:{ apply (db_refresh_ok user row).
          - cbn [db emit set_db set_users persistent]. rewrite Hdb.
            unfold persistent_row. cbn [persistent fresh_session Datatypes.app List.find fst].
            rewrite bool_decide_true by reflexivity. reflexivity.
          - cbn [users emit set_db set_users].
            apply find_id_new. intros u Hu. now apply next_rowid_above. }
      reflexivity. }
  cbn beta iota.
  erewrite bind_ok by apply create_access_token_run.
  unfold ret. eexists. split; [reflexivity|].
  cbn. rewrite Hdb. cbn. rewrite <- !app_assoc. auto.
Qed.

(** ** Decoding a token *)

Lemma validate_access_claims now sub issued :
  validate_claims now (access_claims sub issued)
  = if timegm issued + 604800 <? now then Raise ExpiredSignatureError else Ok tt.
Proof.
  unfold validate_claims, validate_iat, validate_nbf, validate_exp, validate_aud,
    validate_sub, validate_jti, validate_at_hash.
  replace (access_claims sub issued !! "iat") with (@None jval) by reflexivity.
  replace (access_claims sub issued !! "nbf") with (@None jval) by reflexivity.
  replace (access_claims sub issued !! "aud") with (@None jval) by reflexivity.
  replace (access_claims sub issued !! "jti") with (@None jval) by reflexivity.
  replace (access_claims sub issued !! "at_hash") with (@None jval) by reflexivity.
  replace (access_claims sub issued !! "sub") with (Some (JStr sub)) by reflexivity.
  replace (access_claims sub issued !! "exp")
    with (Some (JInt (timegm issued + 604800))) by reflexivity.
  cbn [and_then claim_int].
  destruct (timegm issued + 604800 <? now); reflexivity.
Qed.

Lemma decode_token_issued sub issued w :
  decode_token (jws_sign SECRET_KEY ALGORITHM (access_claims sub issued)) w
  = (Ok (if timegm issued + 604800 <? timegm (clock w) then None
         else Some (access_claims sub issued)), w).
Proof.
  unfold decode_token, jwt_decode. rewrite jws_verify_sign.
  unfold try_except, bind, get, lift_result, ret.
  rewrite validate_access_claims.
  destruct (timegm issued + 604800 <? timegm (clock w)); reflexivity.
Qed.

(** ** Registration: the two outcomes of the insert *)



(** ** Issuing and reading back a token *)

(** C5, as the code has it.  A token issued for the key [uid] with the
    default lifetime carries the subject [str(uid)] and the expiry
    [exp], the second of issue plus 604800.  Decoded in a second up to
    and including [exp], in particular at any time before the expiry, it
    gives its claims back, with that subject; decoded in a later second
    it gives [None]. *)
Theorem access_token_roundtrip uid w0 w token :
  fst (create_access_token {[ "sub" := PStr (Str.str uid) ]} None w0) = Ok token ->
  let exp := timegm (clock w0) + 604800 in
  let accepted :=
    exists claims,
      fst (decode_token token w) = Ok (Some claims)
      /\ claims !! "sub" = Some (JStr (Str.str uid))
      /\ claims !! "exp" = Some (JInt exp) in
  (clock w < exp * 1000000 -> accepted)
  /\ (timegm (clock w) = exp -> accepted)
  /\ (exp < timegm (clock w) -> fst (decode_token token w) = Ok None).
Proof.
  intros Htoken exp accepted. rewrite create_access_token_run in Htoken.
  cbn [fst] in Htoken. injection Htoken as <-.
  assert (timegm (clock w) <= exp -> accepted) as Hle.
  { intros Hle. unfold accepted. rewrite decode_token_issued. cbn [fst]. fold exp.
    rewrite (proj2 (Z.ltb_ge _ _)) by exact Hle.
    eexists. split; [reflexivity|]. split; reflexivity. }
  split; [|split].
  - intros Hlt. apply Hle. apply Z.lt_le_incl.
    unfold timegm. apply Z.div_lt_upper_bound; lia.
  - intros Heq. apply Hle. lia.
  - intros Hlt. rewrite decode_token_issued. cbn [fst]. fold exp.
    rewrite (proj2 (Z.ltb_lt _ _)) by exact Hlt. reflexivity.
Qed.

(** ** Login *)

Lemma query_filter_email_first_run e w :
  query_filter_email_first e w
  = (Ok (List.find (fun u => String.eqb (email u) e) (users w)), emit DbQuery w).
Proof. reflexivity. Qed.



(** ** The user of a session cookie *)

(** Case analysis on a scrutinee of the goal that is not itself a case
    analysis. *)
Ltac case_scrutinee :=
  match goal with
  | |- context [match ?x with _ => _ end] =>
      lazymatch x with
      | context [match _ with _ => _ end] => fail
      | _ => destruct x
      end
  end.

Lemma validate_claims_raises now claims e :
  validate_claims now claims = Raise e -> is_JWTError e = true.
Proof.
  unfold validate_claims, validate_iat, validate_nbf, validate_exp, validate_aud,
    validate_sub, validate_jti, validate_at_hash, and_then.
  repeat case_scrutinee; intros [= <-]; reflexivity.
Qed.

Lemma decode_token_total token w :
  exists data, decode_token token w = (Ok data, w).
Proof.
  unfold decode_token, jwt_decode.
  destruct (jws_verify SECRET_KEY [ALGORITHM] token) as [claims|].
  - unfold try_except, bind, get, lift_result, ret.
    destruct (validate_claims (timegm (clock w)) claims) as [[]|e] eqn:Hv.
    + eauto.
    + rewrite (validate_claims_raises _ _ _ Hv). eauto.
  - unfold try_except, bind, raise, ret. cbn. eauto.
Qed.

Lemma query_filter_id_first_run uid w :
  query_filter_id_first uid w
  = if is_int64 uid
    then (Ok (List.find (fun u => id u =? uid) (users w)), emit DbQuery w)
    else (Raise OverflowError, w).
Proof. unfold query_filter_id_first. destruct (is_int64 uid); reflexivity. Qed.

Lemma lookup_sub_run sub w :
  exists w',
    try_except (uid <- py_int sub ;; query_filter_id_first uid) is_Exception (ret None) w
    = (Ok (user_of_sub sub (users w)), w')
    /\ (w' = w \/ w' = emit DbQuery w).
Proof.
  unfold try_except, bind, py_int, user_of_sub.
  destruct sub as [s|n].
  - destruct (Str.parse_int s) as [n|]; cbn.
    + rewrite query_filter_id_first_run. destruct (is_int64 n); cbn; eauto.
    + eauto.
  - cbn. rewrite query_filter_id_first_run. destruct (is_int64 n); cbn; eauto.
Qed.

Lemma user_of_sub_In sub t u : user_of_sub sub t = Some u -> In u t.
Proof.
  unfold user_of_sub. intros H.
  destruct sub as [s|n]; [destruct (Str.parse_int s) as [n|]; [|discriminate]|];
    destruct (is_int64 n); try discriminate;
    exact (proj1 (find_some _ _ H)).
Qed.

Lemma discussions_user_obj_total request w :
  exists user_obj w',
    discussions_user_obj request w = (Ok user_obj, w')
    /\ (w' = w \/ w' = emit DbQuery w)
    /\ match user_obj with Some u => In u (users w) | None => True end.
Proof.
  unfold discussions_user_obj.
  destruct (cookies request !! "access_token") as [token|]; [|unfold ret; eauto 6].
  destruct (Str.truthy token); [|unfold ret; eauto 6].
  destruct (decode_token_total token w) as (data & Hdec).
  erewrite bind_ok by exact Hdec.
  destruct data as [data|]; [|unfold ret; eauto 6].
  destruct (bool_decide (data = ∅)); cbn [negb]; [unfold ret; eauto 6|].
  destruct (data !! "sub") as [sub|]; [|unfold ret; eauto 6].
  destruct (lookup_sub_run sub w) as (w' & Hrun & Hw').
  rewrite Hrun. exists (user_of_sub sub (users w)), w'.
  split; [reflexivity|]. split; [exact Hw'|].
  destruct (user_of_sub sub (users w)) as [u|] eqn:Hu; [|exact I].
  eapply user_of_sub_In, Hu.
Qed.

Lemma decode_token_unverified token w :
  jws_verify SECRET_KEY [ALGORITHM] token = None ->
  decode_token token w = (Ok None, w).
Proof.
  intros Hv. unfold decode_token, jwt_decode. rewrite Hv. reflexivity.
Qed.

Lemma decode_token_expired token claims exp w :
  jws_verify SECRET_KEY [ALGORITHM] token = Some claims ->
  claims !! "exp" = Some (JInt exp) ->
  exp < timegm (clock w) ->
  decode_token token w = (Ok None, w).
Proof.
  intros Hv Hexp Hlt.
  destruct (decode_token_total token w) as ([data|] & Hrun); [|exact Hrun].
  exfalso. revert Hrun. unfold decode_token, jwt_decode. rewrite Hv.
  unfold try_except, bind, get, lift_result, ret.
  destruct (validate_claims (timegm (clock w)) claims) as [[]|e] eqn:Hval.
  - revert Hval. unfold validate_claims, validate_exp, and_then. rewrite Hexp.
    cbn [claim_int]. rewrite (proj2 (Z.ltb_lt _ _) Hlt).
    destruct (validate_iat claims); [|discriminate].
    destruct (validate_nbf (timegm (clock w)) claims); discriminate.
  - rewrite (validate_claims_raises _ _ _ Hval). discriminate.
Qed.



(** ** The discussions page *)

Lemma query_order_by_id_asc_run w :
  query_order_by_id_asc w = (Ok (merge_sort id_le (users w)), emit DbQuery w).
Proof. reflexivity. Qed.



(** ** The order of the listings *)

#[local] Instance id_le_total : Total id_le.
Proof. intros u v. unfold id_le. lia. Qed.

#[local] Instance id_le_transitive : Transitive id_le.
Proof. intros u v x. unfold id_le. lia. Qed.

Lemma discussions_page_run request user_obj w :
  discussions_page request user_obj w
  = (match template_dir w "discussions/discussions.html" with
     | None => Ok (HTMLResponse discussions_fallback_html 200)
     | Some template =>
         match template {| ctx_request := request; ctx_user := user_obj;
                           ctx_users_list := merge_sort id_le (users w) |} with
         | Ok html => Ok (HTMLResponse html 200)
         | Raise e =>
             if is_TemplateNotFound e
             then Ok (HTMLResponse discussions_fallback_html 200)
             else Raise e
         end
     end, emit DbQuery w).
Proof.
  unfold discussions_page.
  erewrite bind_ok by apply query_order_by_id_asc_run.
  unfold try_except, TemplateResponse, bind, get, lift_result, raise, ret.
  cbn [template_dir users emit].
  destruct (template_dir w "discussions/discussions.html") as [template|];
    [|reflexivity].
  destruct (template _) as [html|e]; [reflexivity|].
  destruct (is_TemplateNotFound e); reflexivity.
Qed.

Lemma discussions_users request w :
  users (snd (discussions request w)) = users w.
Proof.
  destruct (discussions_user_obj_total request w) as (user_obj & w' & Hrun & Hw' & _).
  unfold discussions. erewrite bind_ok by exact Hrun.
  rewrite discussions_page_run. cbn [snd users emit].
  destruct Hw' as [->| ->]; reflexivity.
Qed.

Lemma post_login_users mail password w :
  users (snd (post_login mail password w)) = users w.
Proof.
  unfold post_login.
  erewrite bind_ok by apply query_filter_email_first_run.
  destruct (List.find _ (users w)) as [user|]; [|reflexivity].
  unfold verify_password. unfold bind at 1, bind at 1, modify, ret.
  destruct (pwd_verify password (hashed_password user)); cbn [negb]; [|reflexivity].
  erewrite bind_ok by apply create_access_token_run. reflexivity.
Qed.

(** A request leaves the table as it is or appends one row, which has the
    next key and an email that no row had. *)
Lemma app_users_step r w :
  users (snd (app r w)) = users w
  \/ exists now p,
       email_taken (new_email p) (users w) = false
       /\ users (snd (app r w)) = (users w ++ [row_of now p (users w)])%list.
Proof.
  destruct r as [| | | | |request|name mail password password_confirm|mail password|];
    simpl app; try (left; reflexivity);
    rewrite ?get_db_run; cbn [snd users emit set_db].
  - left. rewrite discussions_users. reflexivity.
  - destruct (String.eqb_spec password password_confirm) as [<-|Hne].
    + destruct (email_taken (Str.lower (Str.strip mail)) (users w)) eqn:Htaken.
      * destruct (post_register_taken_run name mail password
                    (set_db fresh_session w) eq_refl Htaken)
          as (w' & Hrun & Hu & _).
        left. rewrite Hrun. exact Hu.
      * destruct (post_register_fresh_run name mail password
                    (set_db fresh_session w) eq_refl Htaken)
          as (w' & Hrun & Hu & _).
        right. rewrite Hrun. cbn [snd]. rewrite Hu. eexists _, _.
        split; [|reflexivity]. exact Htaken.
    + left. rewrite post_register_mismatch_run by assumption. reflexivity.
  - left. rewrite post_login_users. reflexivity.
Qed.

Lemma table_inv_snoc now p t :
  table_inv t -> email_taken (new_email p) t = false ->
  table_inv (t ++ [row_of now p t]).
Proof.
  intros [Hs Hn] Hfree. split.
  - apply StronglySorted_app_2; [|exact Hs|repeat constructor].
    intros u v Hu Hv. apply list_elem_of_In in Hu.
    apply list_elem_of_singleton in Hv as ->.
    unfold id_lt. cbn [id row_of]. now apply next_rowid_above.
  - rewrite map_app. cbn [map email row_of].
    apply NoDup_app. split; [exact Hn|]. split; [|apply NoDup_singleton].
    intros e He Hin. apply list_elem_of_singleton in Hin as ->.
    apply list_elem_of_In, in_map_iff in He as (u & Heq & Hu).
    exact (proj1 (email_taken_false _ _) Hfree u Hu Heq).
Qed.

Lemma reachable_table_inv t : reachable t -> table_inv t.
Proof.
  induction 1 as [|w r _ IH].
  - split; constructor.
  - destruct (app_users_step r w) as [->|(now & p & Hfree & ->)]; [exact IH|].
    now apply table_inv_snoc.
Qed.

Lemma StronglySorted_id_lt_le t : StronglySorted id_lt t -> StronglySorted id_le t.
Proof.
  induction 1 as [|u t _ IH Hall]; constructor; [exact IH|].
  eapply Forall_impl; [exact Hall|]. intros v Hv. unfold id_lt, id_le in *. lia.
Qed.


(** ** Login after registration *)




(** ** [int(str(n))] *)

Lemma digit_pretty_N_char x :
  (x < 10)%N -> Str.digit (pretty_N_char x) = Some (Z.of_N x).
Proof.
  intros Hx.
  assert (x = 0 \/ x = 1 \/ x = 2 \/ x = 3 \/ x = 4 \/ x = 5 \/ x = 6 \/ x = 7
          \/ x = 8 \/ x = 9)%N as Hcases by lia.
  repeat destruct Hcases as [->|Hcases]; try subst x; reflexivity.
Qed.

Lemma not_space_pretty_N_char x : not_space (pretty_N_char x) = true.
Proof.
  unfold pretty_N_char. repeat case_scrutinee; reflexivity.
Qed.

Lemma int_digits_pretty_N_go x s :
  (0 < x)%N ->
  exists k, 0 <= k /\ forall acc b,
    Str.int_digits acc b (pretty_N_go x s)
    = Str.int_digits (acc * 10 ^ k + Z.of_N x) true s.
Proof.
  revert s. induction (N.lt_wf_0 x) as [x _ IH]. intros s Hpos.
  rewrite pretty_N_go_step by exact Hpos.
  assert (x `mod` 10 < 10)%N as Hmod by (apply N.mod_lt; lia).
  destruct (N.eq_dec (x `div` 10)%N 0%N) as [Hz|Hnz].
  - rewrite Hz, pretty_N_go_0. exists 1. split; [lia|]. intros acc b.
    cbn [Str.int_digits]. rewrite digit_pretty_N_char by exact Hmod.
    f_equal. pose proof (N.div_mod x 10 ltac:(lia)) as Hx.
    rewrite Hz, N.mul_0_r, N.add_0_l in Hx. rewrite <- Hx.
    change (10 ^ 1) with 10. lia.
  - assert (x `div` 10 < x)%N as Hlt by (apply N.div_lt; lia).
    assert (0 < x `div` 10)%N as Hq by (apply N.neq_0_lt_0; exact Hnz).
    destruct (IH (x `div` 10)%N Hlt (String (pretty_N_char (x `mod` 10)) s) Hq)
      as (k & Hk & Hrun).
    exists (k + 1). split; [lia|]. intros acc b. rewrite Hrun.
    cbn [Str.int_digits]. rewrite digit_pretty_N_char by exact Hmod.
    f_equal. rewrite Z.pow_add_r, Z.pow_1_r by lia.
    pose proof (N.div_mod x 10 ltac:(lia)) as Hx.
    set (q := (x `div` 10)%N) in *. set (m := (x `mod` 10)%N) in *.
    clearbody q m. subst x. generalize (10 ^ k). intros pw. lia.
Qed.

Lemma pretty_N_go_head x s :
  (0 < x)%N ->
  exists d r, (d < 10)%N /\ pretty_N_go x s = String (pretty_N_char d) r.
Proof.
  revert s. induction (N.lt_wf_0 x) as [x _ IH]. intros s Hpos.
  rewrite pretty_N_go_step by exact Hpos.
  destruct (N.eq_dec (x `div` 10)%N 0%N) as [Hz|Hnz].
  - rewrite Hz, pretty_N_go_0. eexists _, _. split; [|reflexivity].
    apply N.mod_lt; lia.
  - apply IH; [apply N.div_lt; lia|apply N.neq_0_lt_0; exact Hnz].
Qed.

Lemma all_chars_pretty_N_go x s :
  all_chars not_space s = true -> all_chars not_space (pretty_N_go x s) = true.
Proof.
  revert s. induction (N.lt_wf_0 x) as [x _ IH]. intros s Hs.
  destruct (N.eq_dec x 0%N) as [->|Hnz]; [rewrite pretty_N_go_0; exact Hs|].
  rewrite pretty_N_go_step by lia. apply IH; [apply N.div_lt; lia|].
  cbn [all_chars]. rewrite not_space_pretty_N_char. exact Hs.
Qed.

Lemma rstrip_not_space s : all_chars not_space s = true -> Str.rstrip s = s.
Proof.
  induction s as [|c r IH]; [reflexivity|]. cbn [all_chars Str.rstrip].
  intros [Hc Hr]%andb_prop. rewrite (IH Hr).
  unfold not_space in Hc. apply negb_true_iff in Hc. rewrite Hc.
  destruct r; reflexivity.
Qed.

Lemma strip_not_space s : all_chars not_space s = true -> Str.strip s = s.
Proof.
  intros Hs. unfold Str.strip.
  assert (Str.lstrip s = s) as ->; [|apply rstrip_not_space, Hs].
  destruct s as [|c r]; [reflexivity|]. cbn [all_chars] in Hs.
  apply andb_prop in Hs as [Hc _]. unfold not_space in Hc.
  apply negb_true_iff in Hc. cbn [Str.lstrip]. rewrite Hc. reflexivity.
Qed.

Lemma parse_int_digits d r :
  (d < 10)%N ->
  all_chars not_space (String (pretty_N_char d) r) = true ->
  Str.parse_int (String (pretty_N_char d) r)
  = Str.int_digits 0 false (String (pretty_N_char d) r).
Proof.
  intros Hd Hs. unfold Str.parse_int. rewrite strip_not_space by exact Hs.
  assert (d = 0 \/ d = 1 \/ d = 2 \/ d = 3 \/ d = 4 \/ d = 5 \/ d = 6 \/ d = 7
          \/ d = 8 \/ d = 9)%N as Hcases by lia.
  repeat destruct Hcases as [->|Hcases]; try subst d; reflexivity.
Qed.

Lemma parse_int_pretty_N p :
  Str.parse_int (pretty_N_go (N.pos p) "") = Some (Z.pos p).
Proof.
  destruct (pretty_N_go_head (N.pos p) "" ltac:(lia)) as (d & r & Hd & Heq).
  assert (all_chars not_space (pretty_N_go (N.pos p) "") = true) as Hall
    by (apply all_chars_pretty_N_go; reflexivity).
  rewrite Heq in Hall |- *. rewrite parse_int_digits by assumption.
  rewrite <- Heq.
  destruct (int_digits_pretty_N_go (N.pos p) "" ltac:(lia)) as (k & _ & Hrun).
  rewrite Hrun. cbn [Str.int_digits]. f_equal; lia.
Qed.

(** [int(str(n)) == n]. *)
Lemma parse_int_str n : Str.parse_int (Str.str n) = Some n.
Proof.
  unfold Str.str, pretty, pretty_Z. destruct n as [|p|p]; [reflexivity| |].
  - unfold pretty, pretty_positive, pretty, pretty_N.
    rewrite decide_False by discriminate. apply parse_int_pretty_N.
  - unfold pretty, pretty_positive, pretty, pretty_N.
    rewrite decide_False by discriminate.
    assert (all_chars not_space (pretty_N_go (N.pos p) "") = true) as Hall
      by (apply all_chars_pretty_N_go; reflexivity).
    unfold Str.parse_int. rewrite strip_not_space.
    2:{ change (all_chars not_space (String "-" (pretty_N_go (N.pos p) "")) = true).
        cbn [all_chars]. rewrite Hall. reflexivity. }
    change ("-" +:+ pretty_N_go (N.pos p) "")
      with (String "-" (pretty_N_go (N.pos p) "")).
    destruct (int_digits_pretty_N_go (N.pos p) "" ltac:(lia)) as (k & _ & Hrun).
    rewrite Hrun. cbn [Str.int_digits]. cbn. f_equal; lia.
Qed.

(** ** Normalising an email twice *)

Lemma isspace_lower_char c : Str.isspace (Str.lower_char c) = Str.isspace c.
Proof. destruct c as [[] [] [] [] [] [] [] []]; reflexivity. Qed.

Lemma lower_char_idem c : Str.lower_char (Str.lower_char c) = Str.lower_char c.
Proof. destruct c as [[] [] [] [] [] [] [] []]; reflexivity. Qed.

Lemma lower_idem s : Str.lower (Str.lower s) = Str.lower s.
Proof.
  induction s as [|c r IH]; [reflexivity|]. cbn [Str.lower].
  rewrite lower_char_idem, IH. reflexivity.
Qed.

Lemma lstrip_lower s : Str.lstrip (Str.lower s) = Str.lower (Str.lstrip s).
Proof.
  induction s as [|c r IH]; [reflexivity|]. cbn [Str.lower Str.lstrip].
  rewrite isspace_lower_char. destruct (Str.isspace c); [exact IH|reflexivity].
Qed.

Lemma rstrip_lower s : Str.rstrip (Str.lower s) = Str.lower (Str.rstrip s).
Proof.
  induction s as [|c r IH]; [reflexivity|]. cbn [Str.lower Str.rstrip].
  rewrite IH, isspace_lower_char.
  destruct (Str.rstrip r); cbn [Str.lower]; [|reflexivity].
  destruct (Str.isspace c); reflexivity.
Qed.

Lemma strip_lower s : Str.strip (Str.lower s) = Str.lower (Str.strip s).
Proof. unfold Str.strip. rewrite lstrip_lower, rstrip_lower. reflexivity. Qed.

Lemma lstrip_head s :
  Str.lstrip s = EmptyString
  \/ exists c r, Str.lstrip s = String c r /\ Str.isspace c = false.
Proof.
  induction s as [|c r IH]; [now left|]. cbn [Str.lstrip].
  destruct (Str.isspace c) eqn:Hc; [exact IH|]. right. eauto.
Qed.

Lemma rstrip_idem s : Str.rstrip (Str.rstrip s) = Str.rstrip s.
Proof.
  induction s as [|c r IH]; [reflexivity|]. cbn [Str.rstrip].
  destruct (Str.rstrip r) as [|d t] eqn:Hr.
  - destruct (Str.isspace c) eqn:Hc; [reflexivity|].
    cbn [Str.rstrip]. rewrite Hc. reflexivity.
  - cbn [Str.rstrip] in IH |- *.
    destruct (Str.rstrip t) as [|e t'] eqn:Ht.
    + destruct (Str.isspace d); [discriminate IH|]. exact (f_equal (String c) IH).
    + exact (f_equal (String c) IH).
Qed.

Lemma strip_idem s : Str.strip (Str.strip s) = Str.strip s.
Proof.
  unfold Str.strip.
  assert (Str.lstrip (Str.rstrip (Str.lstrip s)) = Str.rstrip (Str.lstrip s)) as ->;
    [|apply rstrip_idem].
  destruct (lstrip_head s) as [->|(c & r & -> & Hc)]; [reflexivity|].
  cbn [Str.rstrip]. destruct (Str.rstrip r).
  - rewrite Hc. cbn [Str.lstrip]. rewrite Hc. reflexivity.
  - cbn [Str.lstrip]. rewrite Hc. reflexivity.
Qed.

(** [e.strip().lower()] applied to its own result changes nothing. *)
Lemma normalise_idem s :
  Str.lower (Str.strip (Str.lower (Str.strip s))) = Str.lower (Str.strip s).
Proof. rewrite strip_lower, strip_idem, lower_idem. reflexivity. Qed.

(** ** What a request does to the table *)

(** Only a registration with agreeing passwords and a new email writes,
    and it writes the row of its normalised fields at the end. *)
Lemma app_users_register_step r w :
  users (snd (app r w)) = users w
  \/ exists name mail password,
       r = POST_register name mail password password
       /\ email_taken (Str.lower (Str.strip mail)) (users w) = false
       /\ users (snd (app r w))
          = (users w
             ++ [{| id := next_rowid (users w);
                    username := Str.strip name;
                    email := Str.lower (Str.strip mail);
                    hashed_password := pwd_hash (urandom w) password;
                    created_at := Some (clock w) |}])%list.
Proof.
  destruct r as [| | | | |request|name mail password password_confirm|mail password|];
    simpl app; try (left; reflexivity);
    rewrite ?get_db_run; cbn [snd users emit set_db].
  - left. rewrite discussions_users. reflexivity.
  - destruct (String.eqb_spec password password_confirm) as [<-|Hne].
    + destruct (email_taken (Str.lower (Str.strip mail)) (users w)) eqn:Htaken.
      * destruct (post_register_taken_run name mail password
                    (set_db fresh_session w) eq_refl Htaken)
          as (w' & Hrun & Hu & _).
        left. rewrite Hrun. exact Hu.
      * destruct (post_register_fresh_run name mail password
                    (set_db fresh_session w) eq_refl Htaken)
          as (w' & Hrun & Hu & _).
        right. rewrite Hrun. cbn [snd]. rewrite Hu. exists name, mail, password.
        split; [reflexivity|]. split; [exact Htaken|reflexivity].
    + left. rewrite post_register_mismatch_run by assumption. reflexivity.
  - left. rewrite post_login_users. reflexivity.
Qed.

Lemma max_id_In t m : max_id t = Some m -> exists u, In u t /\ id u = m.
Proof.
  revert m. induction t as [|v t IH]; cbn [max_id foldr]; [discriminate|].
  fold (max_id t). intros m [= <-]. destruct (max_id t) as [m'|].
  - destruct (Z.max_spec (id v) m') as [[_ ->]|[_ ->]].
    + destruct (IH m' eq_refl) as (u & Hu & Hid). exists u. split; [now right|exact Hid].
    + exists v. split; [now left|reflexivity].
  - exists v. split; [now left|reflexivity].
Qed.

Lemma next_rowid_dense t :
  map id t = seqZ 1 (Z.of_nat (length t)) ->
  next_rowid t = Z.of_nat (length t) + 1.
Proof.
  intros Hids. unfold next_rowid. destruct (max_id t) as [m|] eqn:Hmax.
  - destruct (max_id_In t m Hmax) as (u & Hu & Hid).
    assert (id u ∈ seqZ 1 (Z.of_nat (length t))) as Hin.
    { rewrite <- Hids. apply list_elem_of_In, in_map, Hu. }
    apply elem_of_seqZ in Hin.
    assert (Z.of_nat (length t) ∈ map id t) as Hlast.
    { rewrite Hids. apply elem_of_seqZ. lia. }
    apply list_elem_of_In, in_map_iff in Hlast as (v & Hv & Hvin).
    destruct (max_id_bound t v Hvin) as (m' & Hm' & Hle).
    rewrite Hmax in Hm'. injection Hm' as <-. lia.
  - destruct t as [|v t]; [reflexivity|]. cbn in Hmax. discriminate Hmax.
Qed.

Lemma reachable_ids_dense t :
  reachable t -> map id t = seqZ 1 (Z.of_nat (length t)).
Proof.
  induction 1 as [|w r _ IH]; [reflexivity|].
  destruct (app_users_register_step r w)
    as [->|(name & mail & password & _ & _ & ->)]; [exact IH|].
  rewrite map_app, length_app. cbn [map id length].
  rewrite (next_rowid_dense _ IH), IH, Nat.add_1_r, seqZ_S.
  f_equal. f_equal. lia.
Qed.

Lemma reachable_rows_shape t :
  reachable t ->
  Forall (fun u =>
            Str.lower (Str.strip (email u)) = email u
            /\ Str.strip (username u) = username u
            /\ is_Some (created_at u)
            /\ exists salt password, hashed_password u = pwd_hash salt password) t.
Proof.
  induction 1 as [|w r _ IH]; [constructor|].
  destruct (app_users_register_step r w)
    as [->|(name & mail & password & _ & _ & ->)]; [exact IH|].
  apply Forall_app. split; [exact IH|]. constructor; [|constructor].
  cbn [email username created_at hashed_password].
  split; [apply normalise_idem|]. split; [apply strip_idem|].
  split; [eexists; reflexivity|]. eexists _, _. reflexivity.
Qed.

(** X1. Every table that the application has built from the empty one
    has the keys 1, 2, ..., n in this order and no email twice; in every
    row the email and the user name are what normalisation leaves
    unchanged, the creation time is set, and the stored password is an
    output of the hasher. *)
Theorem reachable_table_shape t :
  reachable t ->
  map id t = seqZ 1 (Z.of_nat (length t))
  /\ NoDup (map email t)
  /\ Forall (fun u =>
               Str.lower (Str.strip (email u)) = email u
               /\ Str.strip (username u) = username u
               /\ is_Some (created_at u)
               /\ exists salt password, hashed_password u = pwd_hash salt password) t.
Proof.
  intros Hreach. split; [apply reachable_ids_dense, Hreach|].
  split; [exact (proj2 (reachable_table_inv t Hreach))|].
  apply reachable_rows_shape, Hreach.
Qed.

(** X2. No request removes or changes a row: the table afterwards is the
    table before followed by at most one row, and a row is added only by
    a registration whose passwords agree and whose normalised email no
    row had. *)
Theorem app_table_append_only r w :
  exists rows,
    users (snd (app r w)) = (users w ++ rows)%list
    /\ (length rows <= 1)%nat
    /\ (rows <> [] ->
        exists name mail password,
          r = POST_register name mail password password
          /\ forall u, In u (users w) -> email u <> Str.lower (Str.strip mail)).
Proof.
  destruct (app_users_register_step r w)
    as [->|(name & mail & password & -> & Hfree & ->)].
  - exists []. rewrite app_nil_r. split; [reflexivity|]. split; [cbn; lia|].
    intros Hne. now destruct Hne.
  - eexists. split; [reflexivity|]. split; [cbn; lia|]. intros _.
    exists name, mail, password. split; [reflexivity|].
    apply email_taken_false, Hfree.
Qed.


(** ** The cookie of a session, sent back *)

Lemma find_id_unique t u :
  StronglySorted id_lt t -> In u t ->
  List.find (fun v => id v =? id u) t = Some u.
Proof.
  induction t as [|v t IH]; intros Hs Hin; [destruct Hin|].
  apply StronglySorted_inv in Hs as [Hs Hall]. cbn [List.find].
  destruct Hin as [->|Hin]; [rewrite Z.eqb_refl; reflexivity|].
  rewrite Forall_forall in Hall.
  assert (id_lt v u) as Hlt by (apply Hall, list_elem_of_In, Hin).
  unfold id_lt in Hlt. rewrite (proj2 (Z.eqb_neq _ _)) by lia.
  apply IH; assumption.
Qed.

Lemma access_claims_not_empty sub issued : access_claims sub issued <> ∅.
Proof.
  intros Heq. apply (f_equal (fun m => m !! "sub")) in Heq.
  rewrite lookup_empty in Heq.
  replace (access_claims sub issued !! "sub") with (Some (JStr sub)) in Heq
    by reflexivity.
  discriminate Heq.
Qed.

(** The cookie carrying the token issued for a row, sent to the
    discussions page: the row while the token has not expired, no user
    afterwards. *)
Lemma session_cookie_user request w u issued :
  cookies request !! "access_token"
  = Some (jws_sign SECRET_KEY ALGORITHM (access_claims (Str.str (id u)) issued)) ->
  Str.truthy (jws_sign SECRET_KEY ALGORITHM (access_claims (Str.str (id u)) issued))
  = true ->
  StronglySorted id_lt (users w) -> In u (users w) -> is_int64 (id u) = true ->
  discussions_user_obj request w
  = if timegm issued + 604800 <? timegm (clock w)
    then (Ok None, w) else (Ok (Some u), emit DbQuery w).
Proof.
  intros Hc Htruthy Hs Hin Hint. unfold discussions_user_obj.
  rewrite Hc, Htruthy. erewrite bind_ok by apply decode_token_issued.
  destruct (timegm issued + 604800 <? timegm (clock w)); [reflexivity|].
  rewrite bool_decide_false by apply access_claims_not_empty. cbn [negb].
  replace (access_claims (Str.str (id u)) issued !! "sub")
    with (Some (JStr (Str.str (id u)))) by reflexivity.
  unfold try_except, bind, py_int. rewrite parse_int_str. unfold ret at 1.
  rewrite query_filter_id_first_run, Hint.
  rewrite find_id_unique by assumption. reflexivity.
Qed.

Lemma post_login_ok_run mail password w user :
  List.find (fun u => String.eqb (email u) (Str.lower (Str.strip mail))) (users w)
  = Some user ->
  pwd_verify password (hashed_password user) = true ->
  fst (post_login mail password w)
  = Ok (RedirectResponse "/discussions" 303
          [access_token_cookie
             (jws_sign SECRET_KEY ALGORITHM
                (access_claims (Str.str (id user)) (clock w)))] []).
Proof.
  intros Hfind Hv. unfold post_login.
  erewrite bind_ok by apply query_filter_email_first_run. rewrite Hfind.
  unfold verify_password. unfold bind at 1, bind at 1, modify, ret.
  rewrite Hv. cbn [negb].
  erewrite bind_ok by apply create_access_token_run. reflexivity.
Qed.

(** X4. The cookie that a successful login sets, sent to the discussions
    page, gives the user who logged in: on any table of the application
    that holds the row, while the second of the request is not after the
    second of the login plus 604800; after that it gives no user. *)
Theorem login_session_roundtrip mail password w user request w2 :
  let token :=
    jws_sign SECRET_KEY ALGORITHM (access_claims (Str.str (id user)) (clock w)) in
  fst (query_filter_email_first (Str.lower (Str.strip mail)) w) = Ok (Some user) ->
  pwd_verify password (hashed_password user) = true ->
  cookies request !! "access_token" = Some token ->
  Str.truthy token = true ->
  reachable (users w2) -> In user (users w2) -> is_int64 (id user) = true ->
  fst (app (POST_login mail password) w)
  = Ok (RedirectResponse "/discussions" 303 [access_token_cookie token] [])
  /\ fst (discussions_user_obj request w2)
     = Ok (if timegm (clock w) + 604800 <? timegm (clock w2) then None else Some user).
Proof.
  intros token Hlookup Hv Hc Htruthy Hreach Hin Hint. split.
  - simpl app. rewrite get_db_run. cbn [fst].
    rewrite query_filter_email_first_run in Hlookup. cbn [fst] in Hlookup.
    injection Hlookup as Hfind.
    rewrite (post_login_ok_run mail password (set_db fresh_session w) user Hfind Hv).
    reflexivity.
  - rewrite (session_cookie_user request w2 user (clock w) Hc Htruthy
               (proj1 (reachable_table_inv _ Hreach)) Hin Hint).
    destruct (timegm (clock w) + 604800 <? timegm (clock w2)); reflexivity.
Qed.

(** X5. The cookie that a successful registration sets, sent to the
    discussions page, gives the row that this registration wrote, under
    the same conditions. *)
Theorem register_session_roundtrip name mail password w request w2 :
  let row := {| id := next_rowid (users w);
                username := Str.strip name;
                email := Str.lower (Str.strip mail);
                hashed_password := pwd_hash (urandom w) password;
                created_at := Some (clock w) |} in
  let token :=
    jws_sign SECRET_KEY ALGORITHM (access_claims (Str.str (id row)) (clock w)) in
  (forall u, In u (users w) -> email u <> Str.lower (Str.strip mail)) ->
  cookies request !! "access_token" = Some token ->
  Str.truthy token = true ->
  reachable (users w2) -> In row (users w2) -> is_int64 (id row) = true ->
  fst (app (POST_register name mail password password) w)
  = Ok (RedirectResponse "/discussions" 303 [access_token_cookie token] [])
  /\ fst (discussions_user_obj request w2)
     = Ok (if timegm (clock w) + 604800 <? timegm (clock w2) then None else Some row).
Proof.
  intros row token Hfree Hc Htruthy Hreach Hin Hint. split.
  - simpl app. rewrite get_db_run. cbn [fst].
    destruct (post_register_fresh_run name mail password (set_db fresh_session w)
                eq_refl (proj2 (email_taken_false _ _) Hfree))
      as (w' & Hrun & _).
    rewrite Hrun. reflexivity.
  - rewrite (session_cookie_user request w2 row (clock w) Hc Htruthy
               (proj1 (reachable_table_inv _ Hreach)) Hin Hint).
    destruct (timegm (clock w) + 604800 <? timegm (clock w2)); reflexivity.
Qed.

(** ** The expiry written into a token *)



(** ** What a decoded token has passed *)

Ltac case_scrutinee_eqn :=
  match goal with
  | |- context [match ?x with _ => _ end] =>
      lazymatch x with
      | context [match _ with _ => _ end] => fail
      | _ => destruct x eqn:?
      end
  end.



(** X8. A login writes nothing: the table and the session are the same
    afterwards.  It makes one query; the password is verified only when
    a row has the email, then once and against the hash of that row; the
    hasher is not called. *)
Theorem post_login_trace mail password w :
  let w' := snd (post_login mail password w) in
  users w' = users w
  /\ db w' = db w
  /\ log w'
     = (log w ++
        DbQuery ::
        match List.find (fun u => String.eqb (email u) (Str.lower (Str.strip mail)))
                (users w) with
        | Some user => [Verified password (hashed_password user)]
        | None => []
        end)%list.
Proof.
  intros w'. subst w'. unfold post_login.
  erewrite bind_ok by apply query_filter_email_first_run.
  destruct (List.find _ (users w)) as [user|]; [|auto].
  assert (verify_password password (hashed_password user) (emit DbQuery w)
          = (Ok (pwd_verify password (hashed_password user)),
             emit (Verified password (hashed_password user)) (emit DbQuery w)))
    as Hverify by reflexivity.
  erewrite bind_ok by exact Hverify.
  destruct (pwd_verify password (hashed_password user)); cbn [negb].
  - erewrite bind_ok by apply create_access_token_run.
    cbn [snd users db log emit ret]. rewrite <- app_assoc. auto.
  - cbn [snd users db log emit ret]. rewrite <- app_assoc. auto.
Qed.

(** ** Rendering the discussions page *)


(** ** The listings on a table of the application *)

Lemma table_ids_inj t x y :
  StronglySorted id_lt t -> In x t -> In y t -> id x = id y -> x = y.
Proof.
  intros Hs Hx Hy Hid.
  pose proof (find_id_unique t x Hs Hx) as Hfx.
  pose proof (find_id_unique t y Hs Hy) as Hfy.
  rewrite Hid in Hfx. rewrite Hfx in Hfy. now injection Hfy.
Qed.

Lemma merge_sort_table t :
  StronglySorted id_lt t -> merge_sort id_le t = t.
Proof.
  intros Hs. apply (StronglySorted_unique_strong id_le).
  - intros x y Hx Hy Hxy Hyx.
    apply (table_ids_inj t); [exact Hs| |apply list_elem_of_In, Hy|].
    + apply list_elem_of_In. rewrite <- (merge_sort_Permutation id_le t). exact Hx.
    + unfold id_le in *. lia.
  - apply StronglySorted_merge_sort; apply _.
  - apply StronglySorted_id_lt_le, Hs.
  - apply merge_sort_Permutation.
Qed.

(** X10. On a table that the application has built, the ordered query
    of the discussions page returns the rows exactly as the table scan
    does, so the page and the two debug listings show the same rows in
    the same order, with the keys 1, 2, ..., n. *)
Theorem listings_agree w :
  reachable (users w) ->
  fst (query_order_by_id_asc w) = fst (query_all w)
  /\ fst (get_all_users w) = Ok (JSONResponse (map user_dict (users w)))
  /\ map d_id (map user_dict (users w)) = seqZ 1 (Z.of_nat (length (users w))).
Proof.
  intros Hreach. split; [|split; [reflexivity|]].
  - rewrite query_order_by_id_asc_run. cbn [fst].
    rewrite merge_sort_table by apply (reachable_table_inv _ Hreach). reflexivity.
  - rewrite map_map. cbn [d_id user_dict].
    change (map (fun x => id x) (users w)) with (map id (users w)).
    apply reachable_ids_dense, Hreach.
Qed.

(** ** Logging in as a stored user *)


(** ** Which cookies give a user *)



(** ** The debug page *)

Lemma string_app_assoc (a b c : string) : (a +:+ b) +:+ c = a +:+ (b +:+ c).
Proof.
  induction a as [|x a IH]; [reflexivity|].
  change (String x ((a +:+ b) +:+ c) = String x (a +:+ b +:+ c)).
  rewrite IH. reflexivity.
Qed.

Lemma string_app_nil_r (a : string) : a +:+ "" = a.
Proof.
  induction a as [|x a IH]; [reflexivity|].
  change (String x (a +:+ "") = String x a). rewrite IH. reflexivity.
Qed.

Lemma substring_of_app_l x a s : substring_of x s -> substring_of x (a +:+ s).
Proof.
  intros (pre & post & ->). exists (a +:+ pre), post.
  rewrite string_app_assoc. reflexivity.
Qed.

Lemma substring_of_app_r x s b : substring_of x s -> substring_of x (s +:+ b).
Proof.
  intros (pre & post & ->). exists pre, (post +:+ b).
  rewrite !string_app_assoc. reflexivity.
Qed.

Lemma concat_cons (x : string) l : String.concat "" (x :: l) = x +:+ String.concat "" l.
Proof. destruct l; [symmetry; apply string_app_nil_r|reflexivity]. Qed.

Lemma substring_of_concat x l : In x l -> substring_of x (String.concat "" l).
Proof.
  induction l as [|y l IH]; [intros []|]. rewrite concat_cons. intros [->|Hin].
  - exists "", (String.concat "" l). reflexivity.
  - apply substring_of_app_l, IH, Hin.
Qed.

Lemma substring_of_user_row u :
  substring_of ("<td>" +:+ username u +:+ "</td><td>" +:+ email u +:+ "</td>")
               (user_row_html u).
Proof.
  exists ("<tr><td>" +:+ Str.str (id u) +:+ "</td>"),
         ("<td>" +:+ match created_at u with
                     | Some d => str_datetime d
                     | None => "None"
                     end +:+ "</td></tr>").
  unfold user_row_html. rewrite !string_app_assoc. reflexivity.
Qed.

(** X12. [get_all_users_html] answers with status 200 and a page in
    which the user name and the email of every row stand as they are
    stored, between the cell tags, without any escaping. *)
Theorem get_all_users_html_verbatim w u :
  In u (users w) ->
  exists html,
    fst (get_all_users_html w) = Ok (HTMLResponse html 200)
    /\ substring_of
         ("<td>" +:+ username u +:+ "</td><td>" +:+ email u +:+ "</td>") html.
Proof.
  intros Hin. eexists. split; [reflexivity|].
  cbn [users emit]. unfold users_page_html.
  repeat match goal with
         | |- substring_of _ (?a +:+ _) =>
             lazymatch a with
             | String.concat _ _ => fail
             | _ => apply substring_of_app_l
             end
         end.
  apply substring_of_app_r.
  destruct (substring_of_user_row u) as (pre & post & Hrow).
  destruct (substring_of_concat (user_row_html u) (map user_row_html (users w))
              (in_map _ _ _ Hin)) as (pre' & post' & Hrows).
  rewrite Hrows, Hrow. exists (pre' +:+ pre), (post +:+ post').
  rewrite !string_app_assoc. reflexivity.
Qed.

(** ** What the routes answer *)

Lemma discussions_response request w response :
  fst (discussions request w) = Ok response ->
  exists html, response = HTMLResponse html 200.
Proof.
  destruct (discussions_user_obj_total request w) as (user_obj & w' & Hrun & _).
  unfold discussions. erewrite bind_ok by exact Hrun.
  rewrite discussions_page_run. cbn [fst].
  destruct (template_dir w' "discussions/discussions.html") as [template|];
    [|intros [= <-]; eauto].
  destruct (template _) as [html|e]; [intros [= <-]; eauto|].
  destruct (is_TemplateNotFound e); [intros [= <-]; eauto|discriminate].
Qed.


(** X15. A response sets a cookie only when it is the 303 redirect of a
    registration or a login, and the cookie then is the [access_token]
    cookie with a token issued at the clock of the request for the key
    of a row that is in the table afterwards. *)
Theorem cookies_only_for_rows r w response c :
  fst (app r w) = Ok response ->
  In c (cookies_of response) ->
  status_of response = 303
  /\ ((exists name mail password password_confirm,
         r = POST_register name mail password password_confirm)
      \/ exists mail password, r = POST_login mail password)
  /\ exists u,
       In u (users (snd (app r w)))
       /\ c = access_token_cookie
                (jws_sign SECRET_KEY ALGORITHM
                   (access_claims (Str.str (id u)) (clock w))).
Proof.
  destruct r as [| | | | |request|name mail password password_confirm|mail password|];
    simpl app; rewrite ?get_db_run; cbn [fst snd users emit set_db].
  - intros [= <-] [].
  - intros [= <-] [].
  - intros [= <-] [].
  - intros [= <-] [].
  - intros [= <-] [].
  - intros Hresp. apply discussions_response in Hresp as (html & ->). intros [].
  - destruct (String.eqb_spec password password_confirm) as [<-|Hne].
    2:{ rewrite post_register_mismatch_run by assumption. intros [= <-] []. }
    destruct (email_taken (Str.lower (Str.strip mail)) (users w)) eqn:Htaken.
    { destruct (post_register_taken_run name mail password
                  (set_db fresh_session w) eq_refl Htaken) as (w' & Hrun & _).
      rewrite Hrun. intros [= <-] []. }
    destruct (post_register_fresh_run name mail password
                (set_db fresh_session w) eq_refl Htaken) as (w' & Hrun & Hu & _).
    rewrite Hrun. cbn [fst snd cookies_of]. intros [= <-] [<-|[]].
    split; [reflexivity|]. split; [left; eauto|].
    eexists. split; [rewrite Hu; apply in_or_app; right; now left|reflexivity].
  - rewrite post_login_users. unfold post_login.
    erewrite bind_ok by apply query_filter_email_first_run.
    destruct (List.find _ (users (set_db fresh_session w))) as [user|] eqn:Hfind;
      [|intros [= <-] []].
    assert (verify_password password (hashed_password user)
              (emit DbQuery (set_db fresh_session w))
            = (Ok (pwd_verify password (hashed_password user)),
               emit (Verified password (hashed_password user))
                 (emit DbQuery (set_db fresh_session w)))) as Hverify by reflexivity.
    erewrite bind_ok by exact Hverify.
    destruct (pwd_verify password (hashed_password user)); cbn [negb];
      [|intros [= <-] []].
    erewrite bind_ok by apply create_access_token_run.
    cbn [fst ret cookies_of]. intros [= <-] [<-|[]].
    split; [reflexivity|]. split; [right; eauto|].
    exists user. split; [|reflexivity]. apply (find_some _ _ Hfind).
  - intros [= <-] [].
Qed.


End App.

(** ** The stand-in satisfies what the section assumes *)

Lemma toy_pos_of_digits p : Toy.pos_of_digits (Toy.digits_of_pos p) = Some p.
Proof. induction p as [p IH|p IH|]; cbn; rewrite ?IH; reflexivity. Qed.

Lemma toy_jws_verify_sign k alg claims :
  Toy.jws_verify k [alg] (Toy.jws_sign k alg claims) = Some claims.
Proof.
  unfold Toy.jws_verify, Toy.jws_sign.
  rewrite toy_pos_of_digits, decode_encode. cbn [existsb].
  rewrite !String.eqb_refl. reflexivity.
Qed.



(** ** The theorems at concrete requests *)

Abbreviation toy_app :=
  (app Toy.pwd_hash Toy.pwd_verify Toy.jws_sign Toy.jws_verify
       Toy.isoformat Toy.str_datetime Toy.BASE_DIR).
Abbreviation toy_post_register := (post_register Toy.pwd_hash Toy.jws_sign).
Abbreviation toy_reachable :=
  (reachable Toy.pwd_hash Toy.pwd_verify Toy.jws_sign Toy.jws_verify
             Toy.isoformat Toy.str_datetime Toy.BASE_DIR).

Lemma post_register_mismatch_400_witness :
  "pw1" <> "pw2"
  /\ fst (toy_app (POST_register "alice" "alice@x.com" "pw1" "pw2") (Toy.world [] 0))
     = Ok (HTMLResponse password_mismatch_html 400).
Proof.
  assert ("pw1" <> "pw2") as Hne by discriminate.
  split; [exact Hne|].
  exact (proj1 (proj2 (post_register_mismatch_400
                         Toy.pwd_hash Toy.pwd_verify Toy.jws_sign Toy.jws_verify
                         Toy.isoformat Toy.str_datetime Toy.BASE_DIR
                         "alice" "alice@x.com" "pw1" "pw2" (Toy.world [] 0) Hne))).
Defined.

Lemma post_register_mismatch_frame_witness :
  "pw1" <> "pw2"
  /\ snd (toy_post_register "alice" "alice@x.com" "pw1" "pw2" (Toy.world [Toy.bob] 7))
     = Toy.world [Toy.bob] 7.
Proof.
  assert ("pw1" <> "pw2") as Hne by discriminate.
  split; [exact Hne|].
  exact (proj1 (post_register_mismatch_frame
                  Toy.pwd_hash Toy.pwd_verify Toy.jws_sign Toy.jws_verify
                  Toy.isoformat Toy.str_datetime Toy.BASE_DIR
                  "alice" "alice@x.com" "pw1" "pw2" (Toy.world [Toy.bob] 7) Hne)).
Defined.




Lemma access_token_roundtrip_witness :
  let token := Toy.jws_sign SECRET_KEY ALGORITHM (access_claims "7" 1500000) in
  exists claims,
    fst (decode_token Toy.jws_verify token (Toy.world [] 86400000000)) = Ok (Some claims)
    /\ claims !! "sub" = Some (JStr "7")
    /\ claims !! "exp" = Some (JInt 604801).
Proof.
  refine (proj1 (access_token_roundtrip Toy.jws_sign Toy.jws_verify toy_jws_verify_sign
                   7 (Toy.world [] 1500000) (Toy.world [] 86400000000) _ _) _).
  - reflexivity.
  - vm_compute. reflexivity.
Defined.

(** C5 as stated fails at the expiry itself: a token issued at the epoch
    expires at second 604800, and decoded at that very second it is
    still accepted. *)
Lemma access_token_at_expiry_counterexample :
  let issued := Toy.world [] 0 in
  let parsed := Toy.world [] (604800 * 1000000) in
  exists token,
    fst (create_access_token Toy.jws_sign {[ "sub" := PStr (Str.str 7) ]} None issued)
    = Ok token
    /\ clock parsed = (timegm (clock issued) + 604800) * 1000000
    /\ fst (decode_token Toy.jws_verify token parsed)
       = Ok (Some (access_claims "7" 0))
    /\ fst (decode_token Toy.jws_verify token parsed) <> Ok None.
Proof.
  intros issued parsed. eexists. split; [|split; [|split]].
  - rewrite create_access_token_run. reflexivity.
  - reflexivity.
  - rewrite (decode_token_issued _ _ toy_jws_verify_sign). reflexivity.
  - rewrite (decode_token_issued _ _ toy_jws_verify_sign). discriminate.
Qed.







(** ** The further theorems at concrete requests *)

Lemma toy_alice_reachable : toy_reachable [Toy.alice].
Proof.
  assert (users (snd (toy_app (POST_register "alice" "alice@x.com" "pw1" "pw1")
                        (Toy.world [] 0))) = [Toy.alice]) as <-
    by (vm_compute; reflexivity).
  apply reachable_app. apply reachable_empty.
Qed.

Lemma toy_alice_bob_reachable : toy_reachable [Toy.alice; Toy.bob].
Proof.
  assert (users (snd (toy_app (POST_register "bob" "bob@x.com" "pw2" "pw2")
                        (Toy.world [Toy.alice] 5))) = [Toy.alice; Toy.bob]) as <-
    by (vm_compute; reflexivity).
  apply reachable_app. apply toy_alice_reachable.
Qed.

Lemma reachable_table_shape_witness :
  map id [Toy.alice; Toy.bob] = [1; 2]
  /\ NoDup (map email [Toy.alice; Toy.bob]).
Proof.
  destruct (reachable_table_shape
              Toy.pwd_hash Toy.pwd_verify Toy.jws_sign Toy.jws_verify
              Toy.isoformat Toy.str_datetime Toy.BASE_DIR
              [Toy.alice; Toy.bob] toy_alice_bob_reachable) as (Hids & Hnd & _).
  split; [exact Hids|exact Hnd].
Defined.


Lemma login_session_roundtrip_witness :
  let token := Toy.jws_sign SECRET_KEY ALGORITHM (access_claims "1" 20) in
  fst (discussions_user_obj Toy.jws_verify
         {| cookies := {[ "access_token" := token ]} |} (Toy.world [Toy.alice; Toy.bob] 20))
  = Ok (Some Toy.alice).
Proof.
  intros token.
  refine (proj2 (login_session_roundtrip
                   Toy.pwd_hash Toy.pwd_verify Toy.jws_sign Toy.jws_verify
                   Toy.isoformat Toy.str_datetime Toy.BASE_DIR toy_jws_verify_sign
                   " Alice@X.com" "pw1" (Toy.world [Toy.alice; Toy.bob] 20) Toy.alice
                   {| cookies := {[ "access_token" := token ]} |} (Toy.world [Toy.alice; Toy.bob] 20)
                   _ _ _ _ toy_alice_bob_reachable _ _)).
  - reflexivity.
  - reflexivity.
  - reflexivity.
  - vm_compute. reflexivity.
  - left. reflexivity.
  - reflexivity.
Defined.

Lemma register_session_roundtrip_witness :
  let token := Toy.jws_sign SECRET_KEY ALGORITHM (access_claims "1" 0) in
  fst (discussions_user_obj Toy.jws_verify
         {| cookies := {[ "access_token" := token ]} |} (Toy.world [Toy.alice; Toy.bob] 20))
  = Ok (Some Toy.alice).
Proof.
  intros token.
  refine (proj2 (register_session_roundtrip
                   Toy.pwd_hash Toy.pwd_verify Toy.jws_sign Toy.jws_verify
                   Toy.isoformat Toy.str_datetime Toy.BASE_DIR toy_jws_verify_sign
                   "alice" "alice@x.com" "pw1" (Toy.world [] 0)
                   {| cookies := {[ "access_token" := token ]} |} (Toy.world [Toy.alice; Toy.bob] 20)
                   _ _ _ toy_alice_bob_reachable _ _)).
  - intros u [].
  - reflexivity.
  - vm_compute. reflexivity.
  - left. reflexivity.
  - reflexivity.
Defined.


Lemma listings_agree_witness :
  fst (query_order_by_id_asc (Toy.world [Toy.alice; Toy.bob] 20)) = fst (query_all (Toy.world [Toy.alice; Toy.bob] 20)).
Proof.
  exact (proj1 (listings_agree
                  Toy.pwd_hash Toy.pwd_verify Toy.jws_sign Toy.jws_verify
                  Toy.isoformat Toy.str_datetime Toy.BASE_DIR
                  (Toy.world [Toy.alice; Toy.bob] 20) toy_alice_bob_reachable)).
Defined.

Lemma get_all_users_html_verbatim_witness :
  exists html,
    fst (get_all_users_html Toy.str_datetime (Toy.world [Toy.alice; Toy.bob] 0))
    = Ok (HTMLResponse html 200)
    /\ substring_of "<td>bob</td><td>bob@x.com</td>" html.
Proof.
  apply (get_all_users_html_verbatim Toy.str_datetime
           (Toy.world [Toy.alice; Toy.bob] 0) Toy.bob).
  right. left. reflexivity.
Defined.


Lemma cookies_only_for_rows_witness :
  status_of
    (RedirectResponse "/discussions" 303
       [access_token_cookie
          (Toy.jws_sign SECRET_KEY ALGORITHM (access_claims "1" 3))] [])
  = 303.
Proof.
  refine (proj1 (cookies_only_for_rows
                   Toy.pwd_hash Toy.pwd_verify Toy.jws_sign Toy.jws_verify
                   Toy.isoformat Toy.str_datetime Toy.BASE_DIR
                   (POST_login "alice@x.com" "pw1") (Toy.world [Toy.alice] 3)
                   (RedirectResponse "/discussions" 303
                      [access_token_cookie
                         (Toy.jws_sign SECRET_KEY ALGORITHM (access_claims "1" 3))] [])
                   (access_token_cookie
                      (Toy.jws_sign SECRET_KEY ALGORITHM (access_claims "1" 3)))
                   _ _)).
  - reflexivity.
  - left. reflexivity.
Defined.
